(** * SUTT API gateway: authentication core (main.py, schemas.py)

    A shallow embedding of the endpoints of [main.py] and of the pydantic
    models of [schemas.py], with the two libraries the authentication code
    calls (PyJWT and bcrypt) modelled at the level of their documented
    behaviour.

    Conventions.
    - Python [str] and [bytes] are both byte strings ([string]); [encode()]
      and [decode()] between them are the identity.
    - A [datetime] is a number of microseconds since the epoch (UTC), a
      [timedelta] a number of microseconds, a [date] a day number.
    - A [float] is represented by the rational it denotes.
    - The clock ([datetime.now]) and the random source ([os.urandom]) are
      explicit arguments of the functions that read them.
    - Python exceptions are values of [exn]; a function that can raise
      returns a [result]. *)

From Stdlib Require Import ZArith QArith String Ascii List Lia.
From stdpp Require Import base option decidable countable gmap strings list pretty
  sorting.

Close Scope Q_scope.
Local Open Scope Z_scope.
Local Open Scope string_scope.

(* let [simpl] compute the concatenation of byte strings *)
#[global] Arguments String.append !_ _ / : simpl nomatch.

(** ** Python values *)

Inductive value : Type :=
  | VNone
  | VBool (b : bool)
  | VInt (z : Z)
  | VFloat (q : Q)
  | VStr (s : string)
  | VDatetime (us : Z)
  | VDate (d : Z)
  | VList (l : list string).

#[global] Instance Q_eq_dec : EqDecision Q.
Proof. solve_decision. Defined.

#[global] Instance value_eq_dec : EqDecision value.
Proof. solve_decision. Defined.

(** A Python dict with string keys. *)
Abbreviation dict := (gmap string value).

(** [d.get(k)]: the value, or None when the key is absent. *)
Definition dict_get (d : dict) (k : string) : value :=
  match d !! k with Some v => v | None => VNone end.

(** [d.get(k, dflt)]. *)
Definition dict_get_default (d : dict) (k : string) (dflt : value) : value :=
  match d !! k with Some v => v | None => dflt end.

(** [str(v)] for the values that reach it in [main.py]. *)
Definition py_str (v : value) : string :=
  match v with
  | VNone => "None"
  | VBool true => "True"
  | VBool false => "False"
  | VInt z => pretty z
  | VStr s => s
  | VFloat _ | VDatetime _ | VDate _ | VList _ => "<object>"
  end.

(** ** Exceptions *)

Inductive exn : Type :=
  | HTTPException (status_code : Z) (detail : string)
  (* jwt.exceptions, all subclasses of InvalidTokenError *)
  | DecodeError
  | InvalidSignatureError
  | InvalidAlgorithmError
  | ExpiredSignatureError
  (* builtins and pydantic *)
  | ValueError (msg : string)
  | NotImplementedError
  | TypeError
  | AttributeError
  | ValidationError.

#[global] Instance exn_eq_dec : EqDecision exn.
Proof. solve_decision. Defined.

(** [isinstance(e, jwt.ExpiredSignatureError)]. *)
Definition is_ExpiredSignatureError (e : exn) : bool :=
  match e with ExpiredSignatureError => true | _ => false end.

(** [isinstance(e, jwt.InvalidTokenError)]: the base class of every error
    [jwt.decode] reports about a token, the expired one included. *)
Definition is_InvalidTokenError (e : exn) : bool :=
  match e with
  | DecodeError | InvalidSignatureError | InvalidAlgorithmError
  | ExpiredSignatureError => true
  | _ => false
  end.

(** FastAPI turns an [HTTPException] into a response with that status; any
    other exception leaves the handler unhandled. *)
Definition is_HTTPException (e : exn) : bool :=
  match e with HTTPException _ _ => true | _ => false end.

Inductive result (A : Type) : Type :=
  | Ok (a : A)
  | Raise (e : exn).
Arguments Ok {A} a.
Arguments Raise {A} e.

Definition result_bind {A B} (r : result A) (k : A → result B) : result B :=
  match r with Ok a => k a | Raise e => Raise e end.

Notation "x ←! r ; k" := (result_bind r (λ x, k))
  (at level 20, r at level 100, k at level 200, right associativity,
   format "x  ←!  r ;  '/' k").

(** Case analysis on a chain of [result_bind]s that returned. *)
Ltac bind_ok H :=
  repeat match type of H with
         | result_bind ?r _ = Ok _ =>
             let E := fresh "E" in
             destruct r eqn:E; cbn [result_bind] in H; [|discriminate H]
         end.

(** A computation that can only fail pydantic's validation. *)
Definition raises_only_validation {A} (r : result A) : Prop :=
  ∀ e, r = Raise e → e = ValidationError.

(** ** The document store

    [database.py] is not part of the sources at hand; [main.py] only imports
    [create_document] and [get_documents] from it. *)

Record Store : Type := mkStore {
  collections : gmap string (list dict);
  next_id : N;
}.

(** A query document [{k: v, ...}] matches the documents that hold exactly
    [v] under every key [k]. *)
Definition matches (query doc : dict) : bool :=
  bool_decide (map_Forall (λ k v, doc !! k = Some v) query).

(** Modelled from the spec: [database.get_documents], the store's
    [query] / [findByEmail] operation ("exact match"), which returns the
    matching documents of a collection in insertion order, at most [limit]
    of them. *)
Definition get_documents (collection_name : string) (query : dict)
    (limit : option nat) (st : Store) : list dict :=
  let found := List.filter (matches query)
                 (default [] (collections st !! collection_name)) in
  match limit with
  | Some n => take n found
  | None => found
  end.

(** Modelled from the spec: [database.create_document], the store's
    [create(record) -> id] operation: the record is appended to its
    collection under a fresh identifier assigned by the store, which is
    returned as a string. *)
Definition create_document (collection_name : string) (data : dict)
    (st : Store) : string * Store :=
  let new_id := pretty (next_id st) in
  let docs := default [] (collections st !! collection_name) in
  (new_id,
   {| collections :=
        <[collection_name := (docs ++ [<["_id" := VStr new_id]> data])%list]>
          (collections st);
      next_id := N.succ (next_id st) |}).

(** ** Handlers: state and exceptions

    A handler runs against the store and either returns or raises. *)
Definition py (A : Type) : Type := Store → result A * Store.

Definition ret {A} (a : A) : py A := λ st, (Ok a, st).
Definition raise {A} (e : exn) : py A := λ st, (Raise e, st).
Definition lift {A} (r : result A) : py A := λ st, (r, st).
Definition bind {A B} (m : py A) (k : A → py B) : py B :=
  λ st, match m st with
        | (Ok a, st') => k a st'
        | (Raise e, st') => (Raise e, st')
        end.
Definition read {A} (f : Store → A) : py A := λ st, (Ok (f st), st).
Definition update {A} (f : Store → A * Store) : py A :=
  λ st, let '(a, st') := f st in (Ok a, st').

Notation "x ⇐ m ; k" := (bind m (λ x, k))
  (at level 20, m at level 100, k at level 200, right associativity,
   format "x  ⇐  m ;  '/' k").

(** [try: body except C1: h1 except C2: h2], the clauses tried in order. *)
Definition try_except {A} (body : py A)
    (handlers : list ((exn → bool) * py A)) : py A :=
  λ st, match body st with
        | (Ok a, st') => (Ok a, st')
        | (Raise e, st') =>
            match List.find (λ h, fst h e) handlers with
            | Some h => snd h st'
            | None => (Raise e, st')
            end
        end.

(** ** Byte-string helpers *)

(** Does the byte [c] occur in [s]? *)
Fixpoint str_mem (c : ascii) (s : string) : bool :=
  match s with
  | EmptyString => false
  | String a s' => if Ascii.eqb a c then true else str_mem c s'
  end.

(** [s[:n]]. *)
Fixpoint str_take (n : nat) (s : string) : string :=
  match n, s with
  | S n', String a s' => String a (str_take n' s')
  | _, _ => EmptyString
  end.

(** All the pieces of [s] between occurrences of [sep], empty ones
    included. *)
Fixpoint split_on (sep : ascii) (s : string) : list string :=
  match s with
  | EmptyString => [EmptyString]
  | String a s' =>
      if Ascii.eqb a sep then EmptyString :: split_on sep s'
      else match split_on sep s' with
           | piece :: pieces => String a piece :: pieces
           | [] => [String a EmptyString]
           end
  end.

(** [s.split(sep, 1)] when it yields two parts: cut at the first [sep]. *)
Fixpoint split_first (sep : ascii) (s : string) : option (string * string) :=
  match s with
  | EmptyString => None
  | String a s' =>
      if Ascii.eqb a sep then Some (EmptyString, s')
      else match split_first sep s' with
           | Some (l, r) => Some (String a l, r)
           | None => None
           end
  end.

(** [s.rsplit(sep, 1)] when it yields two parts: cut at the last [sep]. *)
Fixpoint rsplit_last (sep : ascii) (s : string) : option (string * string) :=
  match s with
  | EmptyString => None
  | String a s' =>
      match rsplit_last sep s' with
      | Some (l, r) => Some (String a l, r)
      | None => if Ascii.eqb a sep then Some (EmptyString, s') else None
      end
  end.

Definition nonempty (s : string) : bool :=
  match s with EmptyString => false | _ => true end.

Definition digit_val (c : ascii) : option Z :=
  let n := Z.of_N (N_of_ascii c) in
  if ((48 <=? n) && (n <=? 57))%Z then Some (n - 48) else None.

Definition digit_char (d : Z) : ascii := ascii_of_N (Z.to_N (48 + d)).

Fixpoint parse_digits (acc : Z) (s : string) : option Z :=
  match s with
  | EmptyString => Some acc
  | String a s' =>
      match digit_val a with
      | Some d => parse_digits (10 * acc + d) s'
      | None => None
      end
  end.

(** An unsigned 32-bit decimal number, with an optional leading plus sign. *)
Definition parse_u32 (s : string) : option Z :=
  let digits := match s with
                | String "+" s' => s'
                | _ => s
                end in
  match digits with
  | EmptyString => None
  | _ => match parse_digits 0 digits with
         | Some n => if (n <? 2 ^ 32)%Z then Some n else None
         | None => None
         end
  end.

(** A number below 100 on two digits. *)
Definition format_02 (n : Z) : string :=
  String (digit_char (n / 10)) (String (digit_char (n mod 10)) EmptyString).

(** ** bcrypt

    The library is modelled down to the modular-crypt string it reads and
    writes; the key-expensive Blowfish schedule itself is a parameter. *)

(** Six bits, most significant first. *)
Definition sextet : Type := bool * bool * bool * bool * bool * bool.

Definition bcrypt64_alphabet : list ascii :=
  list_ascii_of_string
    "./ABCDEFGHIJKLMNOPQRSTUVWXYZabcdefghijklmnopqrstuvwxyz0123456789".

Definition sextet_index (x : sextet) : nat :=
  let '(b5, b4, b3, b2, b1, b0) := x in
  (Nat.b2n b5 * 32 + Nat.b2n b4 * 16 + Nat.b2n b3 * 8
   + Nat.b2n b2 * 4 + Nat.b2n b1 * 2 + Nat.b2n b0)%nat.

Definition sextet_of_index (i : nat) : sextet :=
  (Nat.testbit i 5, Nat.testbit i 4, Nat.testbit i 3,
   Nat.testbit i 2, Nat.testbit i 1, Nat.testbit i 0).

Fixpoint index_of (c : ascii) (l : list ascii) : option nat :=
  match l with
  | [] => None
  | a :: l' => if Ascii.eqb a c then Some O else S <$> index_of c l'
  end.

Definition char_of_sextet (x : sextet) : ascii :=
  nth (sextet_index x) bcrypt64_alphabet "."%char.

Definition sextet_of_char (c : ascii) : option sextet :=
  sextet_of_index <$> index_of c bcrypt64_alphabet.

Definition encode3 (a b c : ascii) : string :=
  let '(Ascii a0 a1 a2 a3 a4 a5 a6 a7) := a in
  let '(Ascii b0 b1 b2 b3 b4 b5 b6 b7) := b in
  let '(Ascii c0 c1 c2 c3 c4 c5 c6 c7) := c in
  String (char_of_sextet (a7, a6, a5, a4, a3, a2))
    (String (char_of_sextet (a1, a0, b7, b6, b5, b4))
       (String (char_of_sextet (b3, b2, b1, b0, c7, c6))
          (String (char_of_sextet (c5, c4, c3, c2, c1, c0)) EmptyString))).

Definition encode2 (a b : ascii) : string :=
  let '(Ascii a0 a1 a2 a3 a4 a5 a6 a7) := a in
  let '(Ascii b0 b1 b2 b3 b4 b5 b6 b7) := b in
  String (char_of_sextet (a7, a6, a5, a4, a3, a2))
    (String (char_of_sextet (a1, a0, b7, b6, b5, b4))
       (String (char_of_sextet (b3, b2, b1, b0, false, false)) EmptyString)).

Definition encode1 (a : ascii) : string :=
  let '(Ascii a0 a1 a2 a3 a4 a5 a6 a7) := a in
  String (char_of_sextet (a7, a6, a5, a4, a3, a2))
    (String (char_of_sextet (a1, a0, false, false, false, false)) EmptyString).

(** bcrypt's unpadded radix-64 encoding of a byte string. *)
Fixpoint bcrypt64_encode (s : string) : string :=
  match s with
  | EmptyString => EmptyString
  | String a EmptyString => encode1 a
  | String a (String b EmptyString) => encode2 a b
  | String a (String b (String c rest)) => encode3 a b c ++ bcrypt64_encode rest
  end.

Definition byte1 (x y : sextet) : ascii :=
  let '(x5, x4, x3, x2, x1, x0) := x in
  let '(y5, y4, _, _, _, _) := y in
  Ascii y4 y5 x0 x1 x2 x3 x4 x5.

Definition byte2 (y z : sextet) : ascii :=
  let '(_, _, y3, y2, y1, y0) := y in
  let '(z5, z4, z3, z2, _, _) := z in
  Ascii z2 z3 z4 z5 y0 y1 y2 y3.

Definition byte3 (z w : sextet) : ascii :=
  let '(_, _, _, _, z1, z0) := z in
  let '(w5, w4, w3, w2, w1, w0) := w in
  Ascii w0 w1 w2 w3 w4 w5 z0 z1.

(** The inverse reading; bits left over in the last character are ignored,
    a character outside the alphabet or a lone trailing character is an
    error. *)
Fixpoint bcrypt64_decode (s : string) : option string :=
  match s with
  | EmptyString => Some EmptyString
  | String _ EmptyString => None
  | String c1 (String c2 EmptyString) =>
      x ← sextet_of_char c1; y ← sextet_of_char c2;
      Some (String (byte1 x y) EmptyString)
  | String c1 (String c2 (String c3 EmptyString)) =>
      x ← sextet_of_char c1; y ← sextet_of_char c2; z ← sextet_of_char c3;
      Some (String (byte1 x y) (String (byte2 y z) EmptyString))
  | String c1 (String c2 (String c3 (String c4 rest))) =>
      x ← sextet_of_char c1; y ← sextet_of_char c2; z ← sextet_of_char c3;
      w ← sextet_of_char c4; tail ← bcrypt64_decode rest;
      Some (String (byte1 x y) (String (byte2 y z) (String (byte3 z w) tail)))
  end.

(** The part of bcrypt that is not modelled further: the expensive key
    schedule, from cost, 16-byte salt and (truncated) password to the
    23-byte hash. *)
Class BcryptCore : Type := {
  bcrypt_raw : Z → string → string → string;
}.

Definition version_ok (raw_version : string) : bool :=
  bool_decide (raw_version ∈ ["2y"; "2b"; "2a"; "2x"]).

Definition invalid_salt {A} : result A := Raise (ValueError "Invalid salt").

Section Bcrypt.
Context {core : BcryptCore}.

(** [bcrypt.hashpw(password, salt)]: [salt] is a modular-crypt prefix
    [$version$cost$] followed by at least the 22 characters of the encoded
    salt (a full digest is accepted too). Anything else is
    ValueError("Invalid salt"). *)
Definition hashpw (password salt : string) : result string :=
  let password := str_take 72 password in
  match List.filter nonempty (split_on "$" salt) with
  | [raw_version; raw_cost; remainder] =>
      if negb (version_ok raw_version) then invalid_salt else
      match parse_u32 raw_cost with
      | None => invalid_salt
      | Some cost =>
          if (String.length remainder <? 22)%nat then invalid_salt else
          match bcrypt64_decode (str_take 22 remainder) with
          | None => invalid_salt
          | Some raw_salt =>
              if negb (String.length raw_salt =? 16)%nat then invalid_salt else
              if ((cost <? 4) || (31 <? cost))%Z then invalid_salt else
              Ok ("$" ++ raw_version ++ "$" ++ format_02 cost ++ "$"
                    ++ bcrypt64_encode raw_salt
                    ++ bcrypt64_encode (bcrypt_raw cost raw_salt password))
          end
      end
  | _ => invalid_salt
  end.

(** [bcrypt.checkpw(password, hashed_password)]: hash again under the
    parameters read from the digest and compare; an unreadable digest
    raises like [hashpw]. *)
Definition checkpw (password hashed_password : string) : result bool :=
  hashed ←! hashpw password hashed_password;
  Ok (bool_decide (hashed = hashed_password)).

(** [bcrypt.gensalt()]: 12 rounds, prefix 2b, [rnd] the 16 bytes drawn
    from [os.urandom]. *)
Definition gensalt (rnd : string) : string :=
  "$2b$12$" ++ bcrypt64_encode rnd.

(** The digest [hashpw] computes from a password under the salt of
    [gensalt rnd], for 16 random bytes [rnd]. *)
Definition digest_of (password rnd : string) : string :=
  "$2b$12$" ++ bcrypt64_encode rnd
    ++ bcrypt64_encode (bcrypt_raw 12 rnd (str_take 72 password)).
End Bcrypt.

(** ** PyJWT

    The compact serialisation is modelled as PyJWT reads and writes it:
    three segments joined by dots, the signature computed over the first
    two. What is inside a segment (JSON under base64url) and the MAC are
    parameters. Of the registered claims, the model validates [exp], the
    only one this application issues; [nbf], [iat] and [aud] are not
    modelled. *)
Class JwtLib : Type := {
  (** HMAC-SHA256 of a message under a key *)
  hmac_sha256 : string → string → string;
  (** unpadded base64url; decoding can fail *)
  base64url_encode : string → string;
  base64url_decode : string → option string;
  (** [json.dumps] of an object, and [json.loads] where it yields one *)
  json_dumps : dict → string;
  json_loads : string → option dict;
  (** Python's [int(s)] on a string; [None] is its ValueError *)
  int_of_str : string → option Z;
}.

(** What decoding must undo for an issued token to be read back. *)
Class JwtLibLaws (lib : JwtLib) : Prop := {
  base64url_decode_encode :
    ∀ b, base64url_decode (base64url_encode b) = Some b;
  base64url_encode_no_dot :
    ∀ b, str_mem "." (base64url_encode b) = false;
  json_loads_dumps :
    ∀ d, json_loads (json_dumps d) = Some d;
}.

(** [timegm(dt.utctimetuple())]: whole seconds since the epoch. *)
Definition numeric_date (us : Z) : Z := us / 1000000.

(** A [datetime] under a time claim is stored as a NumericDate. *)
Definition convert_time_claim (claim : string) (payload : dict) : dict :=
  match payload !! claim with
  | Some (VDatetime us) => <[claim := VInt (numeric_date us)]> payload
  | _ => payload
  end.

(** [json.dumps] has no encoding for dates and datetimes. *)
Definition json_value (v : value) : bool :=
  match v with
  | VDatetime _ | VDate _ => false
  | _ => true
  end.

Definition json_serializable (d : dict) : bool :=
  bool_decide (map_Forall (λ _ v, json_value v = true) d).

Definition Qtruncate (q : Q) : Z := Z.quot (Qnum q) (Z.pos (Qden q)).

Section PyJWT.
Context {lib : JwtLib}.

(** Python's [int(v)]. *)
Definition py_int (v : value) : result Z :=
  match v with
  | VInt z => Ok z
  | VBool b => Ok (if b then 1 else 0)
  | VFloat q => Ok (Qtruncate q)
  | VStr s => match int_of_str s with
              | Some z => Ok z
              | None => Raise (ValueError "invalid literal for int()")
              end
  | VNone | VDatetime _ | VDate _ | VList _ => Raise TypeError
  end.

(** The claims as they are serialised. *)
Definition jwt_claims (payload : dict) : dict :=
  convert_time_claim "nbf"
    (convert_time_claim "iat" (convert_time_claim "exp" payload)).

Definition jwt_header (algorithm : string) : dict :=
  <["typ" := VStr "JWT"]> (<["alg" := VStr algorithm]> ∅).

Definition signing_input_of (header payload : dict) : string :=
  base64url_encode (json_dumps header) ++ "."
    ++ base64url_encode (json_dumps payload).

(** [jwt.encode(payload, key, algorithm=...)]. *)
Definition jwt_encode (payload : dict) (key algorithm : string)
    : result string :=
  let payload := jwt_claims payload in
  if negb (json_serializable payload) then Raise TypeError else
  if negb (bool_decide (algorithm = "HS256")) then Raise NotImplementedError
  else
    let signing_input := signing_input_of (jwt_header algorithm) payload in
    let signature := hmac_sha256 key signing_input in
    Ok (signing_input ++ "." ++ base64url_encode signature).

(** The structural reading of a token: payload bytes, signing input,
    header and signature. *)
Definition jws_load (token : string)
    : result (string * string * dict * string) :=
  match rsplit_last "." token with
  | None => Raise DecodeError
  | Some (signing_input, crypto_segment) =>
      match split_first "." signing_input with
      | None => Raise DecodeError
      | Some (header_segment, payload_segment) =>
          match base64url_decode header_segment with
          | None => Raise DecodeError
          | Some header_data =>
              match json_loads header_data with
              | None => Raise DecodeError
              | Some header =>
                  match base64url_decode payload_segment with
                  | None => Raise DecodeError
                  | Some payload =>
                      match base64url_decode crypto_segment with
                      | None => Raise DecodeError
                      | Some signature =>
                          Ok (payload, signing_input, header, signature)
                      end
                  end
              end
          end
      end
  end.

Definition verify_signature (signing_input : string) (header : dict)
    (signature key : string) (algorithms : list string) : result unit :=
  match header !! "alg" with
  | Some (VStr alg) =>
      if negb (nonempty alg) || negb (bool_decide (alg ∈ algorithms))
      then Raise InvalidAlgorithmError
      else if negb (bool_decide (alg = "HS256")) then Raise NotImplementedError
      else if bool_decide (hmac_sha256 key signing_input = signature)
      then Ok ()
      else Raise InvalidSignatureError
  | _ => Raise InvalidAlgorithmError
  end.

(** The expiry check: a token is expired from [exp] on. *)
Definition validate_exp (payload : dict) (now : Z) : result unit :=
  match payload !! "exp" with
  | None => Ok ()
  | Some v =>
      match py_int v with
      | Ok exp =>
          if (exp * 1000000 <=? now)%Z then Raise ExpiredSignatureError
          else Ok ()
      | Raise (ValueError _) => Raise DecodeError
      | Raise e => Raise e
      end
  end.

(** [jwt.decode(token, key, algorithms=...)] at time [now]. *)
Definition jwt_decode (token key : string) (algorithms : list string)
    (now : Z) : result dict :=
  loaded ←! jws_load token;
  let '(payload_bytes, signing_input, header, signature) := loaded in
  _ ←! verify_signature signing_input header signature key algorithms;
  match json_loads payload_bytes with
  | None => Raise DecodeError
  | Some payload =>
      _ ←! validate_exp payload now;
      Ok payload
  end.
End PyJWT.

(** ** schemas.py *)

(** What pydantic's validators decide and this development does not:
    which strings are e-mail addresses ([EmailStr]; an accepted address is
    kept as it is), and how a value that is neither None nor a datetime is
    coerced to one. *)
Class Pydantic : Type := {
  email_ok : string → bool;
  coerce_datetime : value → option Z;
}.

Record User : Type := mkUser {
  id : option string;
  name : string;
  email : string;
  language_pref : option string;
  password_hash : option string;
  created_at : option Z;
}.

Record Itinerary : Type := mkItinerary {
  itinerary_id_field : option string;
  itinerary_user_id : string;
  itinerary_places : list string;
  itinerary_start_date : Z;
  itinerary_end_date : Z;
  itinerary_score : option Q;
}.

Record ItineraryGenerateRequest : Type := mkItineraryGenerateRequest {
  req_user_id : string;
  dates : list Z;
  preferences : dict;
}.

Record ItineraryGenerateResponse : Type := mkItineraryGenerateResponse {
  resp_itinerary_id : string;
  resp_user_id : string;
  resp_places : list string;
  resp_start_date : Z;
  resp_end_date : Z;
  resp_score : Q;
}.

Record AuthRegisterRequest : Type := mkAuthRegisterRequest {
  reg_name : string;
  reg_email : string;
  reg_password : string;
}.

Record AuthRegisterResponse : Type := mkAuthRegisterResponse {
  user_id : string;
  registered_email : string;
  registered_name : string;
}.

Record Token : Type := mkToken {
  access_token : string;
  token_type : string;
}.

(** [OAuth2PasswordRequestForm]: the two fields [login] reads. *)
Record OAuth2PasswordRequestForm : Type := mkForm {
  username : string;
  password : string;
}.

Definition validate_str (v : value) : result string :=
  match v with VStr s => Ok s | _ => Raise ValidationError end.

Definition validate_optional_str (v : value) : result (option string) :=
  match v with
  | VNone => Ok None
  | VStr s => Ok (Some s)
  | _ => Raise ValidationError
  end.

Section Schemas.
Context {pyd : Pydantic}.

Definition validate_EmailStr (v : value) : result string :=
  match v with
  | VStr s => if email_ok s then Ok s else Raise ValidationError
  | _ => Raise ValidationError
  end.

Definition validate_optional_datetime (v : value) : result (option Z) :=
  match v with
  | VNone => Ok None
  | VDatetime us => Ok (Some us)
  | _ => match coerce_datetime v with
         | Some us => Ok (Some us)
         | None => Raise ValidationError
         end
  end.

(** [User(...)] with keyword arguments; an argument that is not passed
    is [None] here and takes the field's default, a required field that
    is not passed fails validation. *)
Definition User_init (id_ name_ email_ language_pref_ password_hash_
    created_at_ : option value) : result User :=
  i ←! from_option validate_optional_str (Ok None) id_;
  n ←! from_option validate_str (Raise ValidationError) name_;
  e ←! from_option validate_EmailStr (Raise ValidationError) email_;
  l ←! from_option validate_optional_str (Ok (Some "en")) language_pref_;
  h ←! from_option validate_optional_str (Ok None) password_hash_;
  c ←! from_option validate_optional_datetime (Ok None) created_at_;
  Ok (mkUser i n e l h c).
End Schemas.

Definition optional_str (o : option string) : value :=
  from_option VStr VNone o.

(** [user.model_dump()]. *)
Definition User_model_dump (u : User) : dict :=
  <["id" := optional_str (id u)]>
    (<["name" := VStr (name u)]>
       (<["email" := VStr (email u)]>
          (<["language_pref" := optional_str (language_pref u)]>
             (<["password_hash" := optional_str (password_hash u)]>
                (<["created_at" := from_option VDatetime VNone (created_at u)]>
                   ∅))))).

Definition Itinerary_model_dump (i : Itinerary) : dict :=
  <["id" := optional_str (itinerary_id_field i)]>
    (<["user_id" := VStr (itinerary_user_id i)]>
       (<["places" := VList (itinerary_places i)]>
          (<["start_date" := VDate (itinerary_start_date i)]>
             (<["end_date" := VDate (itinerary_end_date i)]>
                (<["score" := from_option VFloat VNone (itinerary_score i)]>
                   ∅))))).

(** ** Builtins used by the itinerary endpoint *)

Definition Qltb (a b : Q) : bool := negb (Qle_bool b a).

Definition numeric (v : value) : option Q :=
  match v with
  | VBool b => Some (inject_Z (if b then 1 else 0))
  | VInt z => Some (inject_Z z)
  | VFloat q => Some q
  | _ => None
  end.

Fixpoint list_ltb (a b : list string) : bool :=
  match a, b with
  | _, [] => false
  | [], _ :: _ => true
  | x :: a', y :: b' =>
      if String.ltb x y then true
      else if String.eqb x y then list_ltb a' b' else false
  end.

(** [a < b]: numbers with numbers, strings with strings, and so on; None
    is ordered against nothing, itself included. *)
Definition py_lt (a b : value) : result bool :=
  match numeric a, numeric b with
  | Some x, Some y => Ok (Qltb x y)
  | _, _ =>
      match a, b with
      | VStr x, VStr y => Ok (String.ltb x y)
      | VDatetime x, VDatetime y => Ok (x <? y)%Z
      | VDate x, VDate y => Ok (x <? y)%Z
      | VList x, VList y => Ok (list_ltb x y)
      | _, _ => Raise TypeError
      end
  end.

Section Sorted.
Context {A : Type} (key : A → value).

(** Insert behind every element that is not smaller, which keeps equal
    keys in their original order. *)
Fixpoint insert_desc (x : A) (l : list A) : result (list A) :=
  match l with
  | [] => Ok [x]
  | y :: l' =>
      smaller ←! py_lt (key y) (key x);
      if smaller then Ok (x :: y :: l')
      else l'' ←! insert_desc x l'; Ok (y :: l'')
  end.

(** [sorted(l, key=key, reverse=True)]: a stable descending sort that
    raises TypeError on keys that cannot be compared. *)
Definition py_sorted_desc (l : list A) : result (list A) :=
  fold_left (λ acc x, sorted ←! acc; insert_desc x sorted) l (Ok []).
End Sorted.

(** [min(l)] and [max(l)] on dates. *)
Definition py_min (l : list Z) : result Z :=
  match l with
  | [] => Raise (ValueError "min() arg is an empty sequence")
  | x :: l' => Ok (fold_left Z.min l' x)
  end.

Definition py_max (l : list Z) : result Z :=
  match l with
  | [] => Raise (ValueError "max() arg is an empty sequence")
  | x :: l' => Ok (fold_left Z.max l' x)
  end.

(** [v.encode()]: only a [str] has the method. *)
Definition py_encode (v : value) : result string :=
  match v with VStr s => Ok s | _ => Raise AttributeError end.

(** ** main.py *)

Definition JWT_ALG : string := "HS256".
Definition ACCESS_TOKEN_EXPIRE_MINUTES : Z := 60 * 24.

(** [timedelta(minutes=m)]. *)
Definition timedelta_minutes (m : Z) : Z := m * 60 * 1000000.

(** [expires_delta or default]: None and the zero timedelta are falsy. *)
Definition timedelta_or (expires_delta : option Z) (dflt : Z) : Z :=
  match expires_delta with
  | Some d => if (d =? 0)%Z then dflt else d
  | None => dflt
  end.

(** [user.id or ""]. *)
Definition str_or_empty (o : option string) : string := default "" o.

Section Main.
Context {lib : JwtLib} {core : BcryptCore} {pyd : Pydantic}.

(** [os.getenv("JWT_SECRET", "dev-secret")], read once at start-up. *)
Variable JWT_SECRET : string.

(** The claims [create_access_token] hands to [jwt.encode]. *)
Definition to_encode_of (data : dict) (expires_delta : option Z) (now : Z)
    : dict :=
  let to_encode := data in
  let expire :=
    now + timedelta_or expires_delta
            (timedelta_minutes ACCESS_TOKEN_EXPIRE_MINUTES) in
  <["exp" := VDatetime expire]> to_encode.

Definition create_access_token (data : dict) (expires_delta : option Z)
    (now : Z) : result string :=
  jwt_encode (to_encode_of data expires_delta now) JWT_SECRET JWT_ALG.

(** The [User] built from a stored document (main.py, lines 55 to 61);
    [password_hash] is not passed. *)
Definition User_of_doc (doc : dict) : result User :=
  User_init
    (Some (VStr (py_str (dict_get doc "_id"))))
    (Some (dict_get doc "name"))
    (Some (dict_get doc "email"))
    (Some (dict_get doc "language_pref"))
    None
    (Some (dict_get doc "created_at")).

(** What follows the decoding inside the [try] block. *)
Definition resolve_payload (payload : dict) : py User :=
  let email := dict_get payload "sub" in
  match email with
  | VNone => raise (HTTPException 401 "Invalid token")
  | _ =>
      docs ⇐ read (get_documents "user" (<["email" := email]> ∅) (Some 1%nat));
      match docs with
      | [] => raise (HTTPException 401 "User not found")
      | doc :: _ => lift (User_of_doc doc)
      end
  end.

Definition get_current_user (token : string) (now : Z) : py User :=
  try_except
    (payload ⇐ lift (jwt_decode token JWT_SECRET [JWT_ALG] now);
     resolve_payload payload)
    [(is_ExpiredSignatureError, raise (HTTPException 401 "Token expired"));
     (is_InvalidTokenError, raise (HTTPException 401 "Invalid token"))].

(** [rnd] is what [bcrypt.gensalt] draws from [os.urandom]. *)
Definition register (req : AuthRegisterRequest) (rnd : string)
    : py AuthRegisterResponse :=
  existing ⇐ read (get_documents "user"
                     (<["email" := VStr (reg_email req)]> ∅) (Some 1%nat));
  match existing with
  | _ :: _ => raise (HTTPException 400 "Email already registered")
  | [] =>
      password_hash ⇐ lift (hashpw (reg_password req) (gensalt rnd));
      user ⇐ lift (User_init None (Some (VStr (reg_name req)))
                     (Some (VStr (reg_email req))) None
                     (Some (VStr password_hash)) None);
      user_id ⇐ update (create_document "user" (User_model_dump user));
      ret (mkAuthRegisterResponse user_id (reg_email req) (reg_name req))
  end.

Definition login (form_data : OAuth2PasswordRequestForm) (now : Z)
    : py Token :=
  docs ⇐ read (get_documents "user"
                 (<["email" := VStr (username form_data)]> ∅) (Some 1%nat));
  match docs with
  | [] => raise (HTTPException 400 "Incorrect email or password")
  | doc :: _ =>
      hashed ⇐ lift (py_encode (dict_get_default doc "password_hash" (VStr "")));
      matched ⇐ lift (checkpw (password form_data) hashed);
      if negb matched
      then raise (HTTPException 400 "Incorrect email or password")
      else
        access_token ⇐ lift (create_access_token
                               (<["sub" := dict_get doc "email"]> ∅) None now);
        ret (mkToken access_token "bearer")
  end.

(** [user] is the identity resolved by [get_current_user]. *)
Definition itinerary_generate (req : ItineraryGenerateRequest) (user : User)
    : py ItineraryGenerateResponse :=
  places ⇐ read (get_documents "place" ∅ (Some 50%nat));
  places_sorted ⇐ lift (py_sorted_desc
                          (λ p, dict_get_default p "rating" (VInt 0)) places);
  let selected := map (λ p, py_str (dict_get p "_id")) (take 5 places_sorted) in
  start_date ⇐ lift (py_min (dates req));
  end_date ⇐ lift (py_max (dates req));
  let score :=
    Qplus (1 # 2)
      (Qmult (inject_Z (Z.min (Z.of_nat (length selected)) 5)) (1 # 10)) in
  let itinerary :=
    mkItinerary None (str_or_empty (id user)) selected start_date end_date
      (Some score) in
  itinerary_id ⇐ update (create_document "itinerary"
                           (Itinerary_model_dump itinerary));
  ret (mkItineraryGenerateResponse itinerary_id (str_or_empty (id user))
         selected start_date end_date score).
End Main.

(** ** Executable instances of the library parameters

    Small stand-ins on which the definitions above can be run: a checksum
    for the MAC, hexadecimal for base64url, a bit string for JSON. *)

#[global] Instance value_countable : Countable value.
Proof.
  refine (inj_countable'
    (λ v, match v with
          | VNone => inl (inl (inl (inl (inl (inl (inl ()))))))
          | VBool b => inl (inl (inl (inl (inl (inl (inr b))))))
          | VInt z => inl (inl (inl (inl (inl (inr z)))))
          | VFloat q => inl (inl (inl (inl (inr (Qnum q, Qden q)))))
          | VStr s => inl (inl (inl (inr s)))
          | VDatetime us => inl (inl (inr us))
          | VDate d => inl (inr d)
          | VList l => inr l
          end)
    (λ x, match x with
          | inl (inl (inl (inl (inl (inl (inl ())))))) => VNone
          | inl (inl (inl (inl (inl (inl (inr b)))))) => VBool b
          | inl (inl (inl (inl (inl (inr z))))) => VInt z
          | inl (inl (inl (inl (inr (n, d))))) => VFloat (Qmake n d)
          | inl (inl (inl (inr s))) => VStr s
          | inl (inl (inr us)) => VDatetime us
          | inl (inr d) => VDate d
          | inr l => VList l
          end) _).
  intros [| | |[]| | | |]; reflexivity.
Defined.

Fixpoint bits_of_pos (p : positive) : string :=
  match p with
  | xH => EmptyString
  | xO p' => String "0" (bits_of_pos p')
  | xI p' => String "1" (bits_of_pos p')
  end.

Fixpoint pos_of_bits (s : string) : option positive :=
  match s with
  | EmptyString => Some xH
  | String a s' =>
      p ← pos_of_bits s';
      if Ascii.eqb a "0" then Some (xO p)
      else if Ascii.eqb a "1" then Some (xI p) else None
  end.

Definition hex_digit (n : N) : ascii :=
  nth (N.to_nat n) (list_ascii_of_string "0123456789abcdef") "0"%char.

Definition hex_value (c : ascii) : option N :=
  N.of_nat <$> index_of c (list_ascii_of_string "0123456789abcdef").

Fixpoint hex_encode (s : string) : string :=
  match s with
  | EmptyString => EmptyString
  | String a s' =>
      let n := N_of_ascii a in
      String (hex_digit (n / 16)) (String (hex_digit (n mod 16)) (hex_encode s'))
  end.

Fixpoint hex_decode (s : string) : option string :=
  match s with
  | EmptyString => Some EmptyString
  | String _ EmptyString => None
  | String h (String l s') =>
      x ← hex_value h; y ← hex_value l; tail ← hex_decode s';
      Some (String (ascii_of_N (16 * x + y)) tail)
  end.

Fixpoint byte_sum (s : string) : N :=
  match s with
  | EmptyString => 0
  | String a s' => (N_of_ascii a + 31 * byte_sum s') mod 4294967296
  end%N.

Definition digits_only (s : string) : option Z :=
  match s with
  | EmptyString => None
  | _ => parse_digits 0 s
  end.

#[global] Instance example_jwt : JwtLib := {|
  hmac_sha256 key msg := pretty (byte_sum (key ++ ":" ++ msg));
  base64url_encode := hex_encode;
  base64url_decode := hex_decode;
  json_dumps d := bits_of_pos (encode d);
  json_loads s := p ← pos_of_bits s; decode p;
  int_of_str := digits_only;
|}.

#[global] Instance example_bcrypt : BcryptCore := {|
  bcrypt_raw cost salt password :=
    str_take 23 (pretty (byte_sum (salt ++ password)) ++ "00000000000000000000000");
|}.

#[global] Instance example_pydantic : Pydantic := {|
  email_ok s := str_mem "@" s;
  coerce_datetime v := None;
|}.

(** ** Reading a token without verifying it

    The properties of a token the error cases of [get_current_user] are
    stated in. *)
Section TokenFacts.
Context {lib : JwtLib}.

(** Header, claims, signature and signing input of a token that reads
    structurally: three segments, each decodable, header and payload
    JSON objects. *)
Definition token_parts (token : string)
    : option (dict * dict * string * string) :=
  match jws_load token with
  | Ok (payload_bytes, signing_input, header, signature) =>
      payload ← json_loads payload_bytes;
      Some (header, payload, signature, signing_input)
  | Raise _ => None
  end.

(** The claims of a token, empty when it does not read. *)
Definition token_claims (token : string) : dict :=
  match token_parts token with
  | Some (_, payload, _, _) => payload
  | None => ∅
  end.

Definition token_claim (token claim : string) : option value :=
  match token_parts token with
  | Some (_, payload, _, _) => payload !! claim
  | None => None
  end.

(** Malformed: the token does not read structurally, or its expiry is a
    string that is not a number. *)
Definition malformed (token : string) : bool :=
  match token_parts token with
  | None => true
  | Some (_, payload, _, _) =>
      match payload !! "exp" with
      | Some (VStr s) => bool_decide (int_of_str s = None)
      | _ => false
      end
  end.

(** The header names HS256 and the signature is the MAC of the signing
    input under [key]. *)
Definition signature_verifies (key token : string) : bool :=
  match jws_load token with
  | Ok (_, signing_input, header, signature) =>
      bool_decide (header !! "alg" = Some (VStr "HS256"))
      && bool_decide (hmac_sha256 key signing_input = signature)
  | Raise _ => false
  end.

(** The token carries an expiry and [now] has reached it. *)
Definition expiry_passed (token : string) (now : Z) : bool :=
  match token_claim token "exp" with
  | Some v => match py_int v with
              | Ok exp => (exp * 1000000 <=? now)%Z
              | Raise _ => false
              end
  | None => false
  end.

(** The token reads structurally and carries no expiry, or one that
    [now] has not reached. *)
Definition unexpired (token : string) (now : Z) : bool :=
  match token_parts token with
  | None => false
  | Some (_, payload, _, _) =>
      match payload !! "exp" with
      | None => true
      | Some v => match py_int v with
                  | Ok exp => (now <? exp * 1000000)%Z
                  | Raise _ => false
                  end
      end
  end.
End TokenFacts.

(** ** Example data *)

Definition ex_secret : string := "dev-secret".
Definition ex_store0 : Store := mkStore ∅ 0.

Definition ex_request : AuthRegisterRequest :=
  mkAuthRegisterRequest "Ann" "ann@x.com" "pw123".

(** The store after Ann has registered. *)
Definition ex_store1 : Store :=
  snd (register ex_request "0123456789abcdef" ex_store0).

(** A user document without a [password_hash]. *)
Definition ex_doc_no_hash : dict :=
  <["_id" := VStr "0"]>
    (<["name" := VStr "Ann"]> (<["email" := VStr "ann@x.com"]> ∅)).

Definition ex_store_no_hash : Store :=
  mkStore (<["user" := [ex_doc_no_hash]]> ∅) 1.

Definition token_or_empty (r : result string) : string :=
  match r with Ok t => t | Raise _ => EmptyString end.


(** Ann's token, issued at time 1.5 s. *)
Definition ex_token_ann : string :=
  token_or_empty
    (create_access_token ex_secret (<["sub" := VStr "ann@x.com"]> ∅) None 1500000).

(** Ann's record in the store, and the digest it holds. *)
Definition ex_doc_ann : dict :=
  hd ∅ (get_documents "user" (<["email" := VStr "ann@x.com"]> ∅)
          (Some 1%nat) ex_store1).

Definition ex_digest : string :=
  py_str (dict_get ex_doc_ann "password_hash").

(** The identity the resolver binds for Ann. *)
Definition ex_user : User :=
  mkUser (Some "0") "Ann" "ann@x.com" (Some "en") None None.

(** An itinerary request without dates. *)
Definition ex_itinerary_request : ItineraryGenerateRequest :=
  mkItineraryGenerateRequest "0" [] ∅.

(** ** Further definitions: the user collection *)

(** The records of the user collection. *)
Definition users (st : Store) : list dict :=
  default [] (collections st !! "user").

(** The e-mail addresses on record, one entry per record that has one. *)
Definition emails (st : Store) : list value :=
  omap (λ doc : dict, doc !! "email") (users st).

(** At most one record per e-mail address. *)
Definition unique_emails (st : Store) : Prop := NoDup (emails st).

(** The record [register] writes for a request. *)
Definition record_of (req : AuthRegisterRequest) (digest : string)
    (st : Store) : dict :=
  <["_id" := VStr (pretty (next_id st))]>
    (User_model_dump
       (mkUser None (reg_name req) (reg_email req) (Some "en")
          (Some digest) None)).


Section Registered.
Context {core : BcryptCore} {pyd : Pydantic}.

End Registered.

(** ** Further definitions: issued tokens *)

(** The NumericDate serialised as expiry of a token issued at [now]. *)
Definition issued_exp (expires_delta : option Z) (now : Z) : Z :=
  numeric_date
    (now + timedelta_or expires_delta
             (timedelta_minutes ACCESS_TOKEN_EXPIRE_MINUTES)).

(** ** Further definitions: the itinerary endpoint *)

(** The sort key of a place as a number, when it is one. *)
Definition rating_of (place : dict) : option Q :=
  numeric (dict_get_default place "rating" (VInt 0)).

(** [a] is rated at least as high as [b]. *)
Definition rated_at_least (a b : dict) : Prop :=
  match rating_of a, rating_of b with
  | Some x, Some y => Qle y x
  | _, _ => False
  end.

(** The key [itinerary_generate] sorts the places by. *)
Definition rating_key (place : dict) : value :=
  dict_get_default place "rating" (VInt 0).

(** The identifier [itinerary_generate] lists a place under. *)
Definition place_id (place : dict) : string := py_str (dict_get place "_id").

(** The record [itinerary_generate] writes. *)
Definition itinerary_record (user : User) (places : list string)
    (start_date end_date : Z) (st : Store) : dict :=
  <["_id" := VStr (pretty (next_id st))]>
    (Itinerary_model_dump
       (mkItinerary None (str_or_empty (id user)) places start_date end_date
          (Some (Qplus (1 # 2)
                   (Qmult (inject_Z (Z.min (Z.of_nat (length places)) 5))
                      (1 # 10)))))).

(** ** The vision alert endpoint (main.py) and its models (schemas.py) *)

(** What pydantic accepts as a float besides floats and integers. *)
Class PydanticFloat : Type := {
  coerce_float : value → option Q;
}.

Record VisionAlertIn : Type := mkVisionAlertIn {
  alert_camera_id : string;
  alert_timestamp : Z;
  alert_alert_type : string;
  alert_confidence : Q;
  coords : option dict;
}.

Record CameraAlert : Type := mkCameraAlert {
  camera_alert_id : option string;
  camera_id : string;
  timestamp : Z;
  alert_type : string;
  confidence : option Q;
  image_url : option string;
  lat : option Q;
  lng : option Q;
}.

Record VisionAlertAck : Type := mkVisionAlertAck {
  status : string;
  alert_id : string;
}.

(** The constraint [ge=0, le=1] of [CameraAlert.confidence]. *)
Definition validate_confidence (q : Q) : result (option Q) :=
  if Qle_bool 0 q && Qle_bool q 1 then Ok (Some q) else Raise ValidationError.

Definition optional_float (o : option Q) : value := from_option VFloat VNone o.

Definition CameraAlert_model_dump (a : CameraAlert) : dict :=
  <["id" := optional_str (camera_alert_id a)]>
    (<["camera_id" := VStr (camera_id a)]>
       (<["timestamp" := VDatetime (timestamp a)]>
          (<["alert_type" := VStr (alert_type a)]>
             (<["confidence" := optional_float (confidence a)]>
                (<["image_url" := optional_str (image_url a)]>
                   (<["lat" := optional_float (lat a)]>
                      (<["lng" := optional_float (lng a)]> ∅))))))).

(** [coords.get(k) if coords else None]: None and the empty dict are
    falsy. *)
Definition coords_get (c : option dict) (k : string) : value :=
  match c with
  | Some d => if bool_decide (d = ∅) then VNone else dict_get d k
  | None => VNone
  end.

Section Vision.
Context {pyf : PydanticFloat}.

Definition validate_optional_float (v : value) : result (option Q) :=
  match v with
  | VNone => Ok None
  | VFloat q => Ok (Some q)
  | VInt z => Ok (Some (inject_Z z))
  | _ => match coerce_float v with
         | Some q => Ok (Some q)
         | None => Raise ValidationError
         end
  end.

(** [CameraAlert(camera_id=..., timestamp=..., alert_type=...,
    confidence=..., lat=..., lng=...)]; [id] and [image_url] take their
    default. *)
Definition CameraAlert_init (camera_id_ : string) (timestamp_ : Z)
    (alert_type_ : string) (confidence_ : Q) (lat_ lng_ : value)
    : result CameraAlert :=
  c ←! validate_confidence confidence_;
  la ←! validate_optional_float lat_;
  lo ←! validate_optional_float lng_;
  Ok (mkCameraAlert None camera_id_ timestamp_ alert_type_ c None la lo).

(** [user] is the identity resolved by [get_current_user]. *)
Definition vision_alerts (alert : VisionAlertIn) (user : User)
    : py VisionAlertAck :=
  let lat := coords_get (coords alert) "lat" in
  let lng := coords_get (coords alert) "lng" in
  doc ⇐ lift (CameraAlert_init (alert_camera_id alert) (alert_timestamp alert)
                (alert_alert_type alert) (alert_confidence alert) lat lng);
  alert_id ⇐ update (create_document "cameraalert"
                       (CameraAlert_model_dump doc));
  ret (mkVisionAlertAck "ok" alert_id).
End Vision.

#[global] Instance example_pydantic_float : PydanticFloat := {|
  coerce_float v := None;
|}.

(** ** Further example data *)

(** A user written without a digest: [model_dump] stores None. *)
Definition ex_store_none_hash : Store :=
  snd (create_document "user"
         (User_model_dump
            (mkUser None "Bob" "bob@x.com" (Some "en") None None))
         ex_store0).

Definition ex_doc_none_hash : dict := hd ∅ (users ex_store_none_hash).

Definition ex_place (ident : string) (rating : option value) : dict :=
  let base : dict := <["_id" := VStr ident]> (<["name" := VStr ident]> ∅) in
  match rating with
  | Some r => <["rating" := r]> base
  | None => base
  end.

(** Seven places, one of them without a rating. *)
Definition ex_places : list dict :=
  [ex_place "p1" (Some (VFloat (7 # 2)));
   ex_place "p2" (Some (VInt 5));
   ex_place "p3" None;
   ex_place "p4" (Some (VFloat (9 # 2)));
   ex_place "p5" (Some (VInt 2));
   ex_place "p6" (Some (VFloat (7 # 2)));
   ex_place "p7" (Some (VInt 4))].

Definition ex_store_places : Store :=
  mkStore (<["place" := ex_places]> ∅) 7.

(** Two places, one with an explicit rating of None. *)
Definition ex_places_none : list dict :=
  [ex_place "p1" (Some (VInt 4)); ex_place "p2" (Some VNone)].

Definition ex_store_places_none : Store :=
  mkStore (<["place" := ex_places_none]> ∅) 2.

(** A request with three dates that names another user. *)
Definition ex_dated_request : ItineraryGenerateRequest :=
  mkItineraryGenerateRequest "someone-else" [20; 18; 19]%Z ∅.

(** An alert with a confidence of 1.5. *)
Definition ex_alert : VisionAlertIn :=
  mkVisionAlertIn "cam-1" 1000000 "crowd" (3 # 2) None.

(** A token for "admin@x.com" with a made-up signature. *)
Definition ex_forged_token : string :=
  signing_input_of (jwt_header "HS256")
    (<["sub" := VStr "admin@x.com"]> ∅)
  ++ "." ++ base64url_encode "forged".

(** * Properties *)

(** ** The definitions on small inputs *)

Example split_on_digest :
  split_on "$" "$2b$12$abc" = [""; "2b"; "12"; "abc"].
Proof. reflexivity. Qed.

Example rsplit_last_token : rsplit_last "." "h.p.s" = Some ("h.p", "s").
Proof. reflexivity. Qed.

Example split_first_token : split_first "." "h.p" = Some ("h", "p").
Proof. reflexivity. Qed.

Example rsplit_last_no_dot : rsplit_last "." "garbage" = None.
Proof. reflexivity. Qed.

Example parse_u32_cost : parse_u32 "12" = Some 12 ∧ parse_u32 "1x" = None.
Proof. split; reflexivity. Qed.

(** The salt of the customary bcrypt test vectors. *)
Example bcrypt64_encode_test_salt :
  bcrypt64_encode
    (string_of_list_ascii
       (concat (repeat [ascii_of_N 16; ascii_of_N 65; ascii_of_N 4] 5)
        ++ [ascii_of_N 16])%list)
  = "CCCCCCCCCCCCCCCCCCCCC.".
Proof. reflexivity. Qed.

Example hashpw_empty_salt :
  hashpw "pw123" "" = Raise (ValueError "Invalid salt").
Proof. reflexivity. Qed.

Example hashpw_not_a_hash :
  hashpw "pw123" "not-a-hash" = Raise (ValueError "Invalid salt").
Proof. reflexivity. Qed.

Example timedelta_or_zero : timedelta_or (Some 0) 5 = 5.
Proof. reflexivity. Qed.

Example py_sorted_desc_stable :
  py_sorted_desc snd [("a", VInt 3); ("b", VFloat (9 # 2)); ("c", VInt 3)]
  = Ok [("b", VFloat (9 # 2)); ("a", VInt 3); ("c", VInt 3)].
Proof. reflexivity. Qed.

Example py_sorted_desc_none :
  py_sorted_desc snd [("a", VInt 3); ("b", VNone)] = Raise TypeError.
Proof. reflexivity. Qed.

Example get_current_user_garbage :
  get_current_user ex_secret "garbage" 0 ex_store1
  = (Raise (HTTPException 401 "Invalid token"), ex_store1).
Proof. vm_compute. reflexivity. Qed.

Example get_current_user_expired :
  get_current_user ex_secret ex_token_ann (86402 * 1000000) ex_store1
  = (Raise (HTTPException 401 "Token expired"), ex_store1).
Proof. vm_compute. reflexivity. Qed.

Example get_current_user_unknown :
  get_current_user ex_secret ex_token_ann 1500000 ex_store0
  = (Raise (HTTPException 401 "User not found"), ex_store0).
Proof. vm_compute. reflexivity. Qed.

(** ** Byte strings *)

Lemma str_mem_app c a b : str_mem c (a ++ b) = str_mem c a || str_mem c b.
Proof.
  induction a as [|x a IH]; simpl; [done|].
  destruct (Ascii.eqb x c); [done|apply IH].
Qed.

Lemma app_empty_r (s : string) : s ++ "" = s.
Proof. induction s as [|x s IH]; simpl; congruence. Qed.

Lemma app_assoc_str (a b c : string) : (a ++ b) ++ c = a ++ (b ++ c).
Proof. induction a as [|x a IH]; simpl; congruence. Qed.

Lemma length_app_str (a b : string) :
  String.length (a ++ b) = (String.length a + String.length b)%nat.
Proof. induction a as [|x a IH]; simpl; congruence. Qed.

Lemma str_take_app (a b : string) : str_take (String.length a) (a ++ b) = a.
Proof. induction a as [|x a IH]; simpl; [by destruct b|congruence]. Qed.

Lemma split_first_app sep a b :
  str_mem sep a = false → split_first sep (a ++ String sep b) = Some (a, b).
Proof.
  induction a as [|x a IH]; simpl.
  - by rewrite Ascii.eqb_refl.
  - destruct (Ascii.eqb x sep); [done|]. intros H. by rewrite IH.
Qed.

Lemma rsplit_last_no_sep sep s :
  str_mem sep s = false → rsplit_last sep s = None.
Proof.
  induction s as [|x s IH]; simpl; [done|].
  destruct (Ascii.eqb x sep); [done|]. intros H. by rewrite IH.
Qed.

Lemma rsplit_last_app sep a b :
  str_mem sep b = false → rsplit_last sep (a ++ String sep b) = Some (a, b).
Proof.
  intros Hb. induction a as [|x a IH]; simpl.
  - by rewrite rsplit_last_no_sep, Ascii.eqb_refl.
  - by rewrite IH.
Qed.

Lemma split_on_no_sep sep s : str_mem sep s = false → split_on sep s = [s].
Proof.
  induction s as [|x s IH]; simpl; [done|].
  destruct (Ascii.eqb x sep); [done|]. intros H. by rewrite IH.
Qed.

(** ** The radix-64 codec of bcrypt *)

Lemma sextet_of_char_of_sextet x : sextet_of_char (char_of_sextet x) = Some x.
Proof.
  destruct x as [[[[[b5 b4] b3] b2] b1] b0].
  destruct b5, b4, b3, b2, b1, b0; reflexivity.
Qed.

Lemma char_of_sextet_not_dollar x : Ascii.eqb (char_of_sextet x) "$" = false.
Proof.
  destruct x as [[[[[b5 b4] b3] b2] b1] b0].
  destruct b5, b4, b3, b2, b1, b0; reflexivity.
Qed.

Lemma bcrypt64_encode_cons3 a b c rest :
  bcrypt64_encode (String a (String b (String c rest)))
  = encode3 a b c ++ bcrypt64_encode rest.
Proof. reflexivity. Qed.

Lemma bcrypt64_decode_encode3 a b c r :
  bcrypt64_decode (encode3 a b c ++ r)
  = (tail ← bcrypt64_decode r; Some (String a (String b (String c tail)))).
Proof.
  destruct a, b, c. unfold encode3.
  cbn [append bcrypt64_decode]. rewrite !sextet_of_char_of_sextet.
  reflexivity.
Qed.

(** Strong induction on byte strings, by length. *)
Lemma string_length_ind (P : string → Prop) :
  (∀ s, (∀ t, (String.length t < String.length s)%nat → P t) → P s) →
  ∀ s, P s.
Proof.
  intros step s. remember (String.length s) as n eqn:Hn.
  revert s Hn. induction (lt_wf n) as [n _ IH]. intros s ->.
  apply step. intros t Ht. by apply (IH (String.length t)).
Qed.

Lemma bcrypt64_decode_encode s : bcrypt64_decode (bcrypt64_encode s) = Some s.
Proof.
  induction s as [s IH] using string_length_ind.
  destruct s as [|a [|b [|c rest]]].
  - reflexivity.
  - destruct a. unfold bcrypt64_encode, encode1.
    cbn [bcrypt64_decode]. rewrite !sextet_of_char_of_sextet. reflexivity.
  - destruct a, b. unfold bcrypt64_encode, encode2.
    cbn [bcrypt64_decode]. rewrite !sextet_of_char_of_sextet. reflexivity.
  - rewrite bcrypt64_encode_cons3, bcrypt64_decode_encode3, IH; [done|].
    simpl. lia.
Qed.

Lemma bcrypt64_encode_no_dollar s : str_mem "$" (bcrypt64_encode s) = false.
Proof.
  induction s as [s IH] using string_length_ind.
  destruct s as [|a [|b [|c rest]]].
  - reflexivity.
  - destruct a. unfold bcrypt64_encode, encode1.
    cbn [str_mem]. by rewrite !char_of_sextet_not_dollar.
  - destruct a, b. unfold bcrypt64_encode, encode2.
    cbn [str_mem]. by rewrite !char_of_sextet_not_dollar.
  - rewrite bcrypt64_encode_cons3, str_mem_app, IH by (simpl; lia).
    destruct a, b, c. unfold encode3.
    cbn [str_mem]. by rewrite !char_of_sextet_not_dollar.
Qed.

Lemma length_encode3 a b c : String.length (encode3 a b c) = 4%nat.
Proof. by destruct a, b, c. Qed.

Lemma bcrypt64_encode_length_16 s :
  String.length s = 16%nat → String.length (bcrypt64_encode s) = 22%nat.
Proof.
  intros H.
  do 16 (destruct s as [|? s]; [discriminate|]).
  destruct s; [|discriminate].
  rewrite !bcrypt64_encode_cons3, !length_app_str, !length_encode3.
  by match goal with |- context [bcrypt64_encode (String ?a "")] => destruct a end.
Qed.

(** ** bcrypt: hashing and checking *)

Section BcryptFacts.
Context {core : BcryptCore}.

Lemma hashpw_prefixed password rnd extra :
  String.length rnd = 16%nat →
  str_mem "$" extra = false →
  hashpw password ("$2b$12$" ++ bcrypt64_encode rnd ++ extra)
  = Ok (digest_of password rnd).
Proof.
  intros Hlen Hextra.
  pose proof (bcrypt64_encode_length_16 rnd Hlen) as Henc.
  set (body := bcrypt64_encode rnd ++ extra).
  assert (Hbody : str_mem "$" body = false).
  { unfold body. by rewrite str_mem_app, bcrypt64_encode_no_dollar, Hextra. }
  assert (Hsplit : split_on "$" ("$2b$12$" ++ body) = [""; "2b"; "12"; body]).
  { simpl. by rewrite split_on_no_sep. }
  assert (Hne : nonempty body = true).
  { unfold body. destruct (bcrypt64_encode rnd); [discriminate|done]. }
  assert (Htake : str_take 22 body = bcrypt64_encode rnd).
  { unfold body. rewrite <- Henc. apply str_take_app. }
  assert (Hlong : (String.length body <? 22)%nat = false).
  { unfold body. rewrite length_app_str, Henc. apply Nat.ltb_ge. lia. }
  unfold hashpw. rewrite Hsplit. cbn [List.filter nonempty]. rewrite Hne.
  change (version_ok "2b") with true.
  change (parse_u32 "12") with (Some 12).
  cbv iota beta. cbn [negb]. rewrite Hlong, Htake, bcrypt64_decode_encode, Hlen.
  reflexivity.
Qed.

Lemma hashpw_gensalt password rnd :
  String.length rnd = 16%nat →
  hashpw password (gensalt rnd) = Ok (digest_of password rnd).
Proof.
  intros Hlen. unfold gensalt.
  rewrite <- (app_empty_r (bcrypt64_encode rnd)) at 1.
  by apply hashpw_prefixed.
Qed.

Lemma checkpw_digest password rnd :
  String.length rnd = 16%nat →
  checkpw password (digest_of password rnd) = Ok true.
Proof.
  intros Hlen. unfold checkpw, digest_of at 1.
  rewrite hashpw_prefixed by (done || apply bcrypt64_encode_no_dollar).
  simpl. by rewrite bool_decide_eq_true_2.
Qed.




(** A digest without the three fields of the modular-crypt format is
    refused with an exception. *)
Lemma checkpw_unreadable password hashed :
  length (List.filter nonempty (split_on "$" hashed)) ≠ 3%nat →
  checkpw password hashed = Raise (ValueError "Invalid salt").
Proof.
  intros H. unfold checkpw, hashpw.
  destruct (List.filter nonempty (split_on "$" hashed)) as [|a [|b [|c [|d l]]]];
    try reflexivity.
  by destruct H.
Qed.
End BcryptFacts.

(** ** PyJWT: issuing and reading back *)



Lemma numeric_date_add_seconds us n :
  numeric_date (us + n * 1000000) = numeric_date us + n.
Proof. unfold numeric_date. by rewrite Z.div_add. Qed.

Lemma timedelta_default :
  timedelta_minutes ACCESS_TOKEN_EXPIRE_MINUTES = 86400 * 1000000.
Proof. reflexivity. Qed.

Section PyJWTFacts.
Context {lib : JwtLib}.


(** The claims of a token issued for a subject alone. *)
Lemma jwt_claims_subject (sub : value) us :
  jwt_claims (<["exp" := VDatetime us]> (<["sub" := sub]> ∅))
  = <["exp" := VInt (numeric_date us)]> (<["sub" := sub]> ∅).
Proof.
  unfold jwt_claims.
  assert (H : convert_time_claim "exp"
                (<["exp" := VDatetime us]> (<["sub" := sub]> (∅ : dict)))
              = <["exp" := VInt (numeric_date us)]> (<["sub" := sub]> ∅)).
  { unfold convert_time_claim. rewrite lookup_insert_eq.
    by rewrite insert_insert_eq. }
  rewrite H. unfold convert_time_claim.
  by rewrite !lookup_insert_ne, !lookup_empty.
Qed.

Lemma json_serializable_subject (sub : value) n :
  json_value sub = true →
  json_serializable (<["exp" := VInt n]> (<["sub" := sub]> ∅)) = true.
Proof.
  intros H. unfold json_serializable. apply bool_decide_eq_true_2.
  apply map_Forall_insert_2; [done|].
  apply map_Forall_insert_2; [done|]. apply map_Forall_empty.
Qed.

Context {laws : JwtLibLaws lib}.

Lemma jws_load_issued header payload signature :
  jws_load (signing_input_of header payload ++ "."
              ++ base64url_encode signature)
  = Ok (json_dumps payload, signing_input_of header payload, header,
        signature).
Proof.
  unfold jws_load. simpl.
  rewrite rsplit_last_app by apply base64url_encode_no_dot.
  unfold signing_input_of. simpl.
  rewrite split_first_app by apply base64url_encode_no_dot.
  by rewrite !base64url_decode_encode, json_loads_dumps.
Qed.

(** A token [jwt.encode] has written under HS256 decodes, under the same
    key, to the claims that were serialised, as long as it has not
    expired. *)
Lemma jwt_decode_encode payload key now :
  json_serializable (jwt_claims payload) = true →
  validate_exp (jwt_claims payload) now = Ok () →
  ∃ token,
    jwt_encode payload key JWT_ALG = Ok token
    ∧ jwt_decode token key [JWT_ALG] now = Ok (jwt_claims payload).
Proof.
  intros Hjson Hexp. eexists. split.
  - unfold jwt_encode. rewrite Hjson. reflexivity.
  - unfold jwt_decode. rewrite jws_load_issued.
    cbn [result_bind]. unfold verify_signature, jwt_header.
    rewrite lookup_insert_ne, lookup_insert_eq by done.
    cbn [nonempty JWT_ALG negb orb].
    rewrite (bool_decide_eq_true_2 (JWT_ALG ∈ [JWT_ALG])) by set_solver.
    cbn [negb orb]. rewrite (bool_decide_eq_true_2 (JWT_ALG = "HS256")) by done.
    cbn [negb]. rewrite bool_decide_eq_true_2 by done.
    cbn [result_bind]. rewrite json_loads_dumps, Hexp. reflexivity.
Qed.
End PyJWTFacts.

(** ** The session resolver *)

Lemma raises_only_validation_bind {A B} (r : result A) (k : A → result B) :
  raises_only_validation r →
  (∀ a, raises_only_validation (k a)) →
  raises_only_validation (result_bind r k).
Proof.
  intros Hr Hk e. destruct r as [a|e']; simpl.
  - apply Hk.
  - intros [= <-]. by apply Hr.
Qed.

Lemma raises_only_validation_from_option {A} (f : value → result A)
    (dflt : result A) (o : option value) :
  (∀ v, raises_only_validation (f v)) →
  raises_only_validation dflt →
  raises_only_validation (from_option f dflt o).
Proof. intros Hf Hd. destruct o; simpl; auto. Qed.

Section ResolverFacts.
Context {lib : JwtLib} {pyd : Pydantic}.
Variable JWT_SECRET : string.

Lemma validate_str_raises v : raises_only_validation (validate_str v).
Proof. intros e. destruct v; simpl; congruence. Qed.

Lemma validate_optional_str_raises v :
  raises_only_validation (validate_optional_str v).
Proof. intros e. destruct v; simpl; congruence. Qed.

Lemma validate_EmailStr_raises v :
  raises_only_validation (validate_EmailStr v).
Proof.
  intros e. destruct v; simpl; try congruence.
  destruct (email_ok s); congruence.
Qed.

Lemma validate_optional_datetime_raises v :
  raises_only_validation (validate_optional_datetime v).
Proof.
  intros e. destruct v; simpl; try congruence;
    destruct (coerce_datetime _); congruence.
Qed.

Lemma User_init_raises i n e l h c :
  raises_only_validation (User_init i n e l h c).
Proof.
  unfold User_init.
  repeat (apply raises_only_validation_bind;
          [apply raises_only_validation_from_option;
           first [ intros ?; apply validate_str_raises
                 | intros ?; apply validate_optional_str_raises
                 | intros ?; apply validate_EmailStr_raises
                 | intros ?; apply validate_optional_datetime_raises
                 | idtac ];
           intros ?; congruence
          | intros ?]).
  intros ?; congruence.
Qed.

(** The identity handed on never carries the stored digest. *)
Lemma User_of_doc_password_hash doc u :
  User_of_doc doc = Ok u → password_hash u = None.
Proof.
  unfold User_of_doc, User_init. intros H.
  cbn [from_option] in H. bind_ok H.
  by injection H as <-.
Qed.

(** The outcomes of the lookup that follows decoding. *)
Lemma resolve_payload_cases payload st :
  resolve_payload payload st
  = match dict_get payload "sub" with
    | VNone => (Raise (HTTPException 401 "Invalid token"), st)
    | sub =>
        match get_documents "user" (<["email" := sub]> ∅) (Some 1%nat) st with
        | [] => (Raise (HTTPException 401 "User not found"), st)
        | doc :: _ => (User_of_doc doc, st)
        end
    end.
Proof.
  unfold resolve_payload.
  destruct (dict_get payload "sub"); try reflexivity;
    unfold bind, read, raise, lift;
    by destruct (get_documents _ _ _ _).
Qed.

Lemma resolve_payload_store payload st :
  snd (resolve_payload payload st) = st.
Proof.
  rewrite resolve_payload_cases.
  destruct (dict_get payload "sub"); try reflexivity;
    by destruct (get_documents _ _ _ _).
Qed.

(** No exception of the lookup is one of PyJWT's, so none is rewritten
    by the [except] clauses. *)
Lemma resolve_payload_not_jwt payload st e :
  fst (resolve_payload payload st) = Raise e →
  is_InvalidTokenError e = false.
Proof.
  rewrite resolve_payload_cases.
  destruct (dict_get payload "sub");
    try (cbn [fst]; intros [= <-]; reflexivity);
    destruct (get_documents _ _ _ _);
    try (cbn [fst]; intros [= <-]; reflexivity);
    cbn [fst]; intros H; apply User_init_raises in H; by subst.
Qed.

Lemma jws_load_raises token e : jws_load token = Raise e → e = DecodeError.
Proof.
  unfold jws_load. repeat case_match; congruence.
Qed.

(** An exception of the lookup passes the [except] clauses unchanged. *)
Lemma except_clauses_pass payload st :
  match resolve_payload payload st with
  | (Ok a, st') => (Ok a, st')
  | (Raise e, st') =>
      match List.find (λ h : (exn → bool) * py User, h.1 e)
              [(is_ExpiredSignatureError,
                raise (HTTPException 401 "Token expired"));
               (is_InvalidTokenError,
                raise (HTTPException 401 "Invalid token"))] with
      | Some h => h.2 st'
      | None => (Raise e, st')
      end
  end = resolve_payload payload st.
Proof.
  pose proof (resolve_payload_not_jwt payload st) as Hjwt.
  destruct (resolve_payload payload st) as [[u|e] st']; [done|].
  specialize (Hjwt e eq_refl). cbn [List.find fst].
  destruct e; try discriminate Hjwt; reflexivity.
Qed.

Lemma get_current_user_decoded token now st payload :
  jwt_decode token JWT_SECRET [JWT_ALG] now = Ok payload →
  get_current_user JWT_SECRET token now st = resolve_payload payload st.
Proof.
  intros H. unfold get_current_user, try_except, bind, lift.
  rewrite H. apply except_clauses_pass.
Qed.

(** [get_current_user] as a decision over the facts of the token. *)
Lemma get_current_user_cases token now st :
  get_current_user JWT_SECRET token now st
  = if malformed token || negb (signature_verifies JWT_SECRET token)
    then (Raise (HTTPException 401 "Invalid token"), st)
    else if expiry_passed token now
    then (Raise (HTTPException 401 "Token expired"), st)
    else if unexpired token now
    then resolve_payload (token_claims token) st
    else (Raise TypeError, st).
Proof.
  pose proof (except_clauses_pass) as Hpass. specialize (λ p, Hpass p st).
unfold get_current_user, try_except, bind, lift, jwt_decode, malformed,
    signature_verifies, expiry_passed, unexpired, token_claims, token_claim,
    token_parts.
  destruct (jws_load token) as [[[[pb si] h] sg]|e] eqn:Hload.
  2: { apply jws_load_raises in Hload as ->. reflexivity. }
  cbn [result_bind]. unfold verify_signature.
  destruct (h !! "alg") as [alg|] eqn:Halg.
  2: { rewrite bool_decide_eq_false_2 by done. by rewrite orb_true_r. }
  destruct (decide (alg = VStr "HS256")) as [->|Hne].
  2: { rewrite (bool_decide_eq_false_2 (Some alg = _)) by congruence.
       rewrite orb_true_r.
       destruct alg as [| | | |s| | |]; try reflexivity.
       rewrite (bool_decide_eq_false_2 (s ∈ [JWT_ALG])).
       - by rewrite orb_true_r.
       - unfold JWT_ALG. intros ->%list_elem_of_singleton. done. }
  rewrite (bool_decide_eq_true_2 (Some _ = Some _)) by done.
  cbn [nonempty negb orb andb].
  rewrite (bool_decide_eq_true_2 ("HS256" ∈ [JWT_ALG])) by (apply list_elem_of_singleton; done).
  rewrite (bool_decide_eq_true_2 ("HS256" = "HS256")) by done.
  cbn [negb orb].
  destruct (bool_decide (hmac_sha256 JWT_SECRET si = sg)) eqn:Hsig.
  2: { by rewrite orb_true_r. }
  cbn [negb result_bind]. rewrite orb_false_r.
  destruct (json_loads pb) as [payload|] eqn:Hjson; [|reflexivity].
  cbn [mbind option_bind]. unfold validate_exp.
  destruct (payload !! "exp") as [v|] eqn:Hexp.
  2: { cbn [result_bind]. apply Hpass. }
  destruct v as [|b|z|q|s|us|d|l]; cbn [py_int];
    try reflexivity.
  - destruct b; destruct (_ <=? _)%Z eqn:Hle; cbn [result_bind];
      rewrite ?Z.ltb_antisym, ?Hle; try reflexivity; apply Hpass.
  - destruct (_ <=? _)%Z eqn:Hle; cbn [result_bind];
      rewrite ?Z.ltb_antisym, ?Hle; try reflexivity; apply Hpass.
  - destruct (_ <=? _)%Z eqn:Hle; cbn [result_bind];
      rewrite ?Z.ltb_antisym, ?Hle; try reflexivity; apply Hpass.
  - destruct (int_of_str s) as [z|] eqn:Hint.
    + rewrite bool_decide_eq_false_2 by done.
      destruct (_ <=? _)%Z eqn:Hle; cbn [result_bind];
        rewrite ?Z.ltb_antisym, ?Hle; try reflexivity; apply Hpass.
    + by rewrite bool_decide_eq_true_2.
Qed.
End ResolverFacts.

(** ** The executable instances satisfy the codec laws *)

Lemma pos_of_bits_of_pos p : pos_of_bits (bits_of_pos p) = Some p.
Proof. induction p as [p IH|p IH|]; simpl; by rewrite ?IH. Qed.

Lemma hex_decode_encode s : hex_decode (hex_encode s) = Some s.
Proof.
  induction s as [|a s IH]; [done|].
  cbn [hex_encode hex_decode]. rewrite IH.
  destruct a as [[] [] [] [] [] [] [] []]; reflexivity.
Qed.

Lemma hex_encode_no_dot s : str_mem "." (hex_encode s) = false.
Proof.
  induction s as [|a s IH]; [done|].
  cbn [hex_encode str_mem]. rewrite IH.
  destruct a as [[] [] [] [] [] [] [] []]; reflexivity.
Qed.

#[global] Instance example_jwt_laws : JwtLibLaws example_jwt.
Proof.
  split.
  - apply hex_decode_encode.
  - apply hex_encode_no_dot.
  - intros d. cbn [json_loads json_dumps example_jwt].
    rewrite pos_of_bits_of_pos. cbn [mbind option_bind]. apply decode_encode.
Qed.

(** ** Token issuance and the session resolver: the claims *)

Section TokenClaims.
Context {lib : JwtLib} {pyd : Pydantic}.
Variable JWT_SECRET : string.







(** C8: whenever the resolver succeeds, the [User] it binds has no
    [password_hash]: the stored digest is not handed to the endpoints. *)
Theorem resolved_user_has_no_password_hash token now st u st' :
  get_current_user JWT_SECRET token now st = (Ok u, st') →
  password_hash u = None.
Proof.
  rewrite get_current_user_cases.
  destruct (malformed token || negb (signature_verifies JWT_SECRET token));
    [done|].
  destruct (expiry_passed token now); [done|].
  destruct (unexpired token now); [|done].
  rewrite resolve_payload_cases.
  destruct (dict_get (token_claims token) "sub"); try done;
    destruct (get_documents _ _ _ _); try done;
    intros [= H _]; by apply User_of_doc_password_hash in H.
Qed.


Context {laws : JwtLibLaws lib}.

(** C1: a token issued for subject [s] and verified with the same secret
    (at once, or at any time before it expires) decodes to a payload whose
    subject is [s], and the resolver looks up exactly that subject. *)
Theorem issue_then_verify_recovers_subject (s : string) (now t : Z)
    (st : Store) :
  (t ≤ now + 86399 * 1000000)%Z →
  ∃ token payload,
    create_access_token JWT_SECRET (<["sub" := VStr s]> ∅) None now = Ok token
    ∧ jwt_decode token JWT_SECRET [JWT_ALG] t = Ok payload
    ∧ payload !! "sub" = Some (VStr s)
    ∧ get_current_user JWT_SECRET token t st
      = match get_documents "user" (<["email" := VStr s]> ∅) (Some 1%nat) st
        with
        | [] => (Raise (HTTPException 401 "User not found"), st)
        | doc :: _ => (User_of_doc doc, st)
        end.
Proof.
  intros Ht. unfold create_access_token, to_encode_of, timedelta_or.
  rewrite timedelta_default.
  destruct (jwt_decode_encode
              (<["exp" := VDatetime (now + 86400 * 1000000)]>
                 (<["sub" := VStr s]> ∅)) JWT_SECRET t)
    as (token & Henc & Hdec).
  - rewrite jwt_claims_subject. by apply json_serializable_subject.
  - rewrite jwt_claims_subject. unfold validate_exp.
    rewrite lookup_insert_eq. cbn [py_int].
    rewrite numeric_date_add_seconds. unfold numeric_date.
    destruct (Z.leb_spec ((now / 1000000 + 86400) * 1000000) t) as [Hle|];
      [|done].
    pose proof (Z.mod_pos_bound now 1000000 eq_refl).
    pose proof (Z.div_mod now 1000000). lia.
  - rewrite jwt_claims_subject in Hdec.
    exists token, (<["exp" := VInt (numeric_date (now + 86400 * 1000000))]>
                     (<["sub" := VStr s]> ∅)).
    split; [exact Henc|]. split; [exact Hdec|].
    split; [by rewrite lookup_insert_ne, lookup_insert_eq|].
    rewrite (get_current_user_decoded _ _ _ _ _ Hdec), resolve_payload_cases.
    unfold dict_get. by rewrite lookup_insert_ne, lookup_insert_eq.
Qed.
End TokenClaims.

(** ** The document store *)

Lemma matches_email (doc : dict) (v : value) :
  doc !! "email" = Some v → matches (<["email" := v]> ∅) doc = true.
Proof.
  intros H. unfold matches. apply bool_decide_eq_true_2.
  apply map_Forall_insert_2; [done|]. apply map_Forall_empty.
Qed.

Lemma take_1_nil {A} (l : list A) : take 1 l = [] → l = [].
Proof. by destruct l. Qed.

(** A query that found nothing finds exactly the new document once a
    matching one has been created. *)
Lemma get_documents_created name q data st :
  get_documents name q (Some 1%nat) st = [] →
  matches q (<["_id" := VStr (pretty (next_id st))]> data) = true →
  get_documents name q (Some 1%nat) (snd (create_document name data st))
  = [<["_id" := VStr (pretty (next_id st))]> data].
Proof.
  unfold get_documents, create_document. cbn [snd collections].
  intros Hnone%take_1_nil Hm.
  rewrite lookup_insert_eq. cbn [default from_option Datatypes.id].
  rewrite List.filter_app, Hnone. cbn [List.filter app]. by rewrite Hm.
Qed.

(** ** Registration and login *)

Section AuthClaims.
Context {lib : JwtLib} {core : BcryptCore} {pyd : Pydantic}.
Variable JWT_SECRET : string.

Lemma User_init_registered n e h u :
  User_init None (Some (VStr n)) (Some (VStr e)) None (Some (VStr h)) None
  = Ok u →
  u = mkUser None n e (Some "en") (Some h) None.
Proof.
  unfold User_init. cbn [from_option validate_str validate_optional_str
                           validate_EmailStr result_bind].
  destruct (email_ok e); cbn [result_bind]; congruence.
Qed.

(** What a successful registration has done. *)
Lemma register_ok_inv req rnd st resp st' :
  register req rnd st = (Ok resp, st') →
  ∃ digest,
    get_documents "user" (<["email" := VStr (reg_email req)]> ∅)
      (Some 1%nat) st = []
    ∧ hashpw (reg_password req) (gensalt rnd) = Ok digest
    ∧ st' = snd (create_document "user"
                   (User_model_dump
                      (mkUser None (reg_name req) (reg_email req) (Some "en")
                         (Some digest) None)) st).
Proof.
  unfold register, bind, read, lift, update, ret, raise.
  destruct (get_documents _ _ _ st) as [|doc docs] eqn:Hdocs; [|done].
  destruct (hashpw _ _) as [digest|e] eqn:Hhash; [|done].
  destruct (User_init _ _ _ _ _ _) as [u|e] eqn:Huser; [|done].
  apply User_init_registered in Huser as ->.
  destruct (create_document _ _ st) as [uid st''] eqn:Hcreate.
  intros [= _ <-]. exists digest. by rewrite Hcreate.
Qed.

(** After a registration, the e-mail address has a record, and the record
    holds the digest. *)
Lemma register_stores req rnd st resp st' :
  register req rnd st = (Ok resp, st') →
  ∃ digest doc,
    hashpw (reg_password req) (gensalt rnd) = Ok digest
    ∧ get_documents "user" (<["email" := VStr (reg_email req)]> ∅)
        (Some 1%nat) st' = [doc]
    ∧ doc !! "email" = Some (VStr (reg_email req))
    ∧ doc !! "password_hash" = Some (VStr digest).
Proof.
  intros (digest & Hnone & Hhash & ->)%register_ok_inv.
  exists digest. eexists. split; [exact Hhash|]. split.
  - apply get_documents_created; [exact Hnone|].
    apply matches_email. by cbn.
  - by cbn.
Qed.

(** C4: a registration whose e-mail address already has a record fails
    with 400 "Email already registered" and leaves the store as it was; so
    does a second registration of an address that was just registered. *)
Theorem register_rejects_duplicate_email req rnd st :
  (get_documents "user" (<["email" := VStr (reg_email req)]> ∅)
     (Some 1%nat) st ≠ [] →
   register req rnd st
   = (Raise (HTTPException 400 "Email already registered"), st))
  ∧ (∀ first rnd0 st0 resp0,
       register first rnd0 st0 = (Ok resp0, st) →
       reg_email first = reg_email req →
       register req rnd st
       = (Raise (HTTPException 400 "Email already registered"), st)).
Proof.
  assert (Hdup : get_documents "user" (<["email" := VStr (reg_email req)]> ∅)
                   (Some 1%nat) st ≠ [] →
                 register req rnd st
                 = (Raise (HTTPException 400 "Email already registered"), st)).
  { intros Hex. unfold register, bind, read, raise.
    by destruct (get_documents _ _ _ st). }
  split; [exact Hdup|].
  intros first rnd0 st0 resp0 Hreg Hemail. apply Hdup.
  apply register_stores in Hreg as (digest & doc & _ & Hdocs & _).
  rewrite <- Hemail, Hdocs. done.
Qed.


(** A login against a record whose digest bcrypt cannot read raises
    bcrypt's ValueError; nothing in [login] catches it. *)
Lemma login_unreadable_digest form_data now st doc docs hashed :
  get_documents "user" (<["email" := VStr (username form_data)]> ∅)
    (Some 1%nat) st = doc :: docs →
  py_encode (dict_get_default doc "password_hash" (VStr "")) = Ok hashed →
  length (List.filter nonempty (split_on "$" hashed)) ≠ 3%nat →
  login JWT_SECRET form_data now st = (Raise (ValueError "Invalid salt"), st).
Proof.
  intros Hsome Henc Hbad.
  unfold login, bind, read, lift, raise.
  by rewrite Hsome, Henc, checkpw_unreadable.
Qed.

(** C3 (the code does not do this): with a record that has no
    [password_hash], [login] passes the empty digest to bcrypt, whose
    ValueError("Invalid salt") leaves the handler uncaught, whatever the
    password; the request does not end in the 400 of bad credentials. *)
Theorem login_without_digest_raises pw now :
  login JWT_SECRET (mkForm "ann@x.com" pw) now ex_store_no_hash
  = (Raise (ValueError "Invalid salt"), ex_store_no_hash)
  ∧ is_HTTPException (ValueError "Invalid salt") = false.
Proof.
  split; [|reflexivity].
  apply (login_unreadable_digest _ _ _ ex_doc_no_hash [] "").
  - vm_compute. reflexivity.
  - reflexivity.
  - cbn. lia.
Qed.

End AuthClaims.

(** ** The itinerary endpoint *)

Lemma py_lt_raises a b e : py_lt a b = Raise e → e = TypeError.
Proof.
  unfold py_lt. destruct (numeric a), (numeric b); try congruence;
    destruct a, b; congruence.
Qed.

Lemma insert_desc_raises {A} (key : A → value) x l e :
  insert_desc key x l = Raise e → e = TypeError.
Proof.
  induction l as [|y l IH]; cbn [insert_desc]; [done|].
  destruct (py_lt (key y) (key x)) as [[]|e'] eqn:Hlt; cbn [result_bind].
  - done.
  - destruct (insert_desc key x l); cbn [result_bind]; [done|].
    intros [= <-]. by apply IH.
  - intros [= <-]. by apply py_lt_raises in Hlt.
Qed.

Lemma py_sorted_desc_raises {A} (key : A → value) l e :
  py_sorted_desc key l = Raise e → e = TypeError.
Proof.
  unfold py_sorted_desc.
  assert (Hgen : ∀ acc : result (list A),
            (∀ e', acc = Raise e' → e' = TypeError) →
            fold_left (λ acc x, sorted ←! acc; insert_desc key x sorted) l acc
            = Raise e → e = TypeError).
  { induction l as [|x l IH]; intros acc Hacc; cbn [fold_left].
    - apply Hacc.
    - apply IH. intros e'. destruct acc as [sorted|e'']; cbn [result_bind].
      + apply insert_desc_raises.
      + intros [= <-]. by apply Hacc. }
  apply Hgen. done.
Qed.

(** C9: with an empty list of dates the endpoint returns no response: it
    raises, and the store is left as it was. The exception is the
    ValueError of [min] on an empty list whenever the places could be
    sorted. *)
Theorem itinerary_generate_empty_dates_raises req user st :
  dates req = [] →
  (∃ e, itinerary_generate req user st = (Raise e, st)
        ∧ is_HTTPException e = false)
  ∧ (∀ places_sorted,
       py_sorted_desc (λ p, dict_get_default p "rating" (VInt 0))
         (get_documents "place" ∅ (Some 50%nat) st) = Ok places_sorted →
       itinerary_generate req user st
       = (Raise (ValueError "min() arg is an empty sequence"), st)).
Proof.
  intros Hdates. unfold itinerary_generate, bind, read, lift.
  rewrite Hdates. cbn [py_min].
  destruct (py_sorted_desc _ _) as [places_sorted|e] eqn:Hsorted.
  - split; [eauto|]. done.
  - apply py_sorted_desc_raises in Hsorted as ->. split; [eauto|]. done.
Qed.

(** ** The theorems at the example data *)

Lemma issue_then_verify_witness :
  (1500000 ≤ 1500000 + 86399 * 1000000)%Z
  ∧ ∃ token payload,
      create_access_token ex_secret (<["sub" := VStr "ann@x.com"]> ∅) None
        1500000 = Ok token
      ∧ jwt_decode token ex_secret [JWT_ALG] 1500000 = Ok payload
      ∧ payload !! "sub" = Some (VStr "ann@x.com")
      ∧ get_current_user ex_secret token 1500000 ex_store1
        = match get_documents "user" (<["email" := VStr "ann@x.com"]> ∅)
                  (Some 1%nat) ex_store1
          with
          | [] => (Raise (HTTPException 401 "User not found"), ex_store1)
          | doc :: _ => (User_of_doc doc, ex_store1)
          end.
Proof.
  split; [lia|].
  apply (issue_then_verify_recovers_subject ex_secret "ann@x.com"
           1500000 1500000 ex_store1).
  lia.
Defined.



Lemma resolved_user_witness :
  get_current_user ex_secret ex_token_ann 1500000 ex_store1
  = (Ok ex_user, ex_store1)
  ∧ dict_get ex_doc_ann "password_hash" = VStr ex_digest
  ∧ password_hash ex_user = None.
Proof.
  split; [vm_compute; reflexivity|]. split; [vm_compute; reflexivity|].
  apply (resolved_user_has_no_password_hash ex_secret ex_token_ann 1500000
           ex_store1 ex_user ex_store1).
  vm_compute; reflexivity.
Defined.

Lemma register_duplicate_witness :
  (get_documents "user" (<["email" := VStr (reg_email ex_request)]> ∅)
     (Some 1%nat) ex_store1 ≠ []
   ∧ register ex_request "fedcba9876543210" ex_store1
     = (Raise (HTTPException 400 "Email already registered"), ex_store1))
  ∧ (register ex_request "0123456789abcdef" ex_store0
     = (Ok (mkAuthRegisterResponse "0" "ann@x.com" "Ann"), ex_store1)
     ∧ register (mkAuthRegisterRequest "Anna" "ann@x.com" "other")
         "fedcba9876543210" ex_store1
       = (Raise (HTTPException 400 "Email already registered"), ex_store1)).
Proof.
  assert (H : get_documents "user"
                (<["email" := VStr (reg_email ex_request)]> ∅)
                (Some 1%nat) ex_store1 ≠ [])
    by (vm_compute; discriminate).
  assert (Hfirst : register ex_request "0123456789abcdef" ex_store0
                   = (Ok (mkAuthRegisterResponse "0" "ann@x.com" "Ann"),
                      ex_store1))
    by (vm_compute; reflexivity).
  split; split; [exact H| |exact Hfirst|].
  - exact (proj1 (register_rejects_duplicate_email ex_request
                    "fedcba9876543210" ex_store1) H).
  - exact (proj2 (register_rejects_duplicate_email
                    (mkAuthRegisterRequest "Anna" "ann@x.com" "other")
                    "fedcba9876543210" ex_store1)
             ex_request "0123456789abcdef" ex_store0 _ Hfirst eq_refl).
Defined.



Lemma itinerary_empty_dates_witness :
  dates ex_itinerary_request = []
  ∧ itinerary_generate ex_itinerary_request ex_user ex_store1
    = (Raise (ValueError "min() arg is an empty sequence"), ex_store1).
Proof.
  split; [reflexivity|].
  apply (proj2 (itinerary_generate_empty_dates_raises ex_itinerary_request
                  ex_user ex_store1 eq_refl) []).
  vm_compute; reflexivity.
Defined.

(** * Further properties *)

(** ** Queries *)

Lemma matches_email_inv (doc : dict) (v : value) :
  matches (<["email" := v]> ∅) doc = true → doc !! "email" = Some v.
Proof.
  unfold matches. intros H%bool_decide_eq_true.
  apply (H "email" v). apply lookup_insert_eq.
Qed.

Lemma get_documents_elem name q limit st doc :
  doc ∈ get_documents name q limit st →
  doc ∈ default [] (collections st !! name) ∧ matches q doc = true.
Proof.
  unfold get_documents. intros H.
  assert (Hin : doc ∈ List.filter (matches q)
                        (default [] (collections st !! name))).
  { destruct limit as [n|]; [|done]. by eapply subseteq_take. }
  apply list_elem_of_In, List.filter_In in Hin as [Hin Hm].
  split; [by apply list_elem_of_In|done].
Qed.

Lemma get_documents_nil_iff name q st :
  get_documents name q (Some 1%nat) st = []
  ↔ ∀ doc, doc ∈ default [] (collections st !! name) → matches q doc = false.
Proof.
  unfold get_documents. split.
  - intros H%take_1_nil doc Hin.
    destruct (matches q doc) eqn:Hm; [|done].
    assert (Hf : doc ∈ List.filter (matches q)
                         (default [] (collections st !! name))).
    { apply list_elem_of_In, List.filter_In. split; [|done].
      by apply list_elem_of_In. }
    rewrite H in Hf. by apply not_elem_of_nil in Hf.
  - intros H.
    destruct (List.filter (matches q) (default [] (collections st !! name)))
      as [|doc l] eqn:Hf; [done|].
    assert (Hin : doc ∈ List.filter (matches q)
                          (default [] (collections st !! name))).
    { rewrite Hf. apply list_elem_of_here. }
    apply list_elem_of_In, List.filter_In in Hin as [Hin Hm].
    apply list_elem_of_In, H in Hin. congruence.
Qed.

(** ** Registration *)

Section RegisterFacts.
Context {core : BcryptCore} {pyd : Pydantic}.

Lemma register_ok_full req rnd st resp st' :
  register req rnd st = (Ok resp, st') →
  ∃ digest,
    get_documents "user" (<["email" := VStr (reg_email req)]> ∅)
      (Some 1%nat) st = []
    ∧ hashpw (reg_password req) (gensalt rnd) = Ok digest
    ∧ email_ok (reg_email req) = true
    ∧ resp = mkAuthRegisterResponse (pretty (next_id st)) (reg_email req)
               (reg_name req)
    ∧ st' = mkStore (<["user" := (users st ++ [record_of req digest st])%list]>
                       (collections st))
              (N.succ (next_id st)).
Proof.
  unfold register, bind, read, lift, update, ret, raise.
  destruct (get_documents _ _ _ st) as [|doc docs] eqn:Hdocs; [|done].
  destruct (hashpw _ _) as [digest|e] eqn:Hhash; [|done].
  unfold User_init.
  cbn [from_option validate_str validate_optional_str validate_EmailStr
         result_bind].
  destruct (email_ok (reg_email req)) eqn:Hok; cbn [result_bind]; [|done].
  unfold create_document. intros [= <- <-]. by exists digest.
Qed.

(** X1: a successful registration answers with the request's e-mail and
    name and the identifier the store assigned, appends exactly one record
    to the user collection, holding the name, the e-mail, language "en" and
    the bcrypt digest of the password, and touches no other collection. *)
Theorem register_creates_one_record req rnd st resp st' :
  register req rnd st = (Ok resp, st') →
  ∃ digest,
    hashpw (reg_password req) (gensalt rnd) = Ok digest
    ∧ resp = mkAuthRegisterResponse (pretty (next_id st)) (reg_email req)
               (reg_name req)
    ∧ users st' = (users st ++ [record_of req digest st])%list
    ∧ record_of req digest st !! "password_hash" = Some (VStr digest)
    ∧ record_of req digest st !! "_id" = Some (VStr (user_id resp))
    ∧ ∀ other, other ≠ "user" →
        collections st' !! other = collections st !! other.
Proof.
  intros (digest & _ & Hhash & _ & -> & ->)%register_ok_full.
  exists digest. split; [done|]. split; [done|]. split.
  { unfold users at 1. cbn [collections]. by rewrite lookup_insert_eq. }
  split; [done|]. split; [done|].
  intros other Hne. cbn [collections]. by rewrite lookup_insert_ne.
Qed.


Lemma emails_app st doc :
  omap (λ d : dict, d !! "email") (users st ++ [doc])%list
  = (emails st ++ match doc !! "email" with Some v => [v] | None => [] end)%list.
Proof.
  unfold emails. rewrite omap_app. reflexivity.
Qed.

(** X3: registration keeps the e-mail addresses on record pairwise
    different, whatever its outcome. *)
Theorem register_preserves_unique_emails req rnd st r st' :
  unique_emails st →
  register req rnd st = (r, st') →
  unique_emails st'.
Proof.
  intros Huniq Hreg. destruct r as [resp|e].
  - apply register_ok_full in Hreg as (digest & Hnone & _ & _ & _ & ->).
    unfold unique_emails, emails, users at 1. cbn [collections].
    rewrite lookup_insert_eq. cbn [default from_option Datatypes.id].
    rewrite emails_app.
    assert (Hrec : record_of req digest st !! "email"
                   = Some (VStr (reg_email req))) by done.
    rewrite Hrec. apply NoDup_app. split; [exact Huniq|]. split.
    + intros v Hv [->|[]%not_elem_of_nil]%elem_of_cons.
      unfold emails in Hv.
      apply list_elem_of_omap in Hv as (doc & Hdoc & Hemail).
      apply (proj1 (get_documents_nil_iff _ _ _) Hnone) in Hdoc.
      by rewrite (matches_email _ _ Hemail) in Hdoc.
    + apply NoDup_singleton.
  - assert (st' = st) as ->; [|done].
    revert Hreg. unfold register, bind, read, lift, update, ret, raise.
    destruct (get_documents _ _ _ st); [|congruence].
    destruct (hashpw _ _); [|congruence].
    destruct (User_init _ _ _ _ _ _); [|congruence].
    destruct (create_document _ _ st). congruence.
Qed.

End RegisterFacts.

(** ** Issued tokens *)

Section IssuedTokens.
Context {lib : JwtLib}.

(** Issuing for a string subject never fails. *)
Lemma create_access_token_subject key (s : string) expires_delta now :
  ∃ token,
    create_access_token key (<["sub" := VStr s]> ∅) expires_delta now
    = Ok token.
Proof.
  unfold create_access_token, to_encode_of, jwt_encode.
  rewrite jwt_claims_subject, json_serializable_subject by done.
  cbn [negb JWT_ALG]. rewrite bool_decide_eq_true_2 by done.
  cbn [negb]. eauto.
Qed.

Context {laws : JwtLibLaws lib}.

(** Decoding what [jwt.encode] wrote: the expiry check on the serialised
    claims decides. *)
Lemma jwt_decode_issued payload key token now :
  jwt_encode payload key JWT_ALG = Ok token →
  jwt_decode token key [JWT_ALG] now
  = (_ ←! validate_exp (jwt_claims payload) now; Ok (jwt_claims payload)).
Proof.
  unfold jwt_encode.
  destruct (json_serializable (jwt_claims payload)); [|done].
  cbn [negb]. rewrite (bool_decide_eq_true_2 (JWT_ALG = "HS256")) by done.
  cbn [negb]. intros Heq.
  assert (token = signing_input_of (jwt_header JWT_ALG) (jwt_claims payload)
                    ++ "." ++ base64url_encode
                         (hmac_sha256 key
                            (signing_input_of (jwt_header JWT_ALG)
                               (jwt_claims payload)))) as -> by congruence.
  clear Heq. unfold jwt_decode. rewrite jws_load_issued.
  cbn [result_bind]. unfold verify_signature, jwt_header.
  rewrite lookup_insert_ne, lookup_insert_eq by done.
  cbn [nonempty negb orb].
  rewrite (bool_decide_eq_true_2 ("HS256" ∈ [JWT_ALG]))
    by (apply list_elem_of_singleton; done).
  cbn [negb orb]. rewrite (bool_decide_eq_true_2 ("HS256" = "HS256")) by done.
  cbn [negb]. rewrite bool_decide_eq_true_2 by done.
  cbn [result_bind]. by rewrite json_loads_dumps.
Qed.

(** The token of a string subject at verification time [t]: read back
    until the serialised expiry, expired from then on. *)
Lemma subject_token_decodes key (s : string) expires_delta now token t :
  create_access_token key (<["sub" := VStr s]> ∅) expires_delta now
  = Ok token →
  jwt_decode token key [JWT_ALG] t
  = if (issued_exp expires_delta now * 1000000 <=? t)%Z
    then Raise ExpiredSignatureError
    else Ok (<["exp" := VInt (issued_exp expires_delta now)]>
               (<["sub" := VStr s]> ∅)).
Proof.
  unfold create_access_token, to_encode_of. intros Henc.
  rewrite (jwt_decode_issued _ _ _ _ Henc), jwt_claims_subject.
  unfold validate_exp. rewrite lookup_insert_eq. cbn [py_int].
  fold (issued_exp expires_delta now).
  by destruct (issued_exp expires_delta now * 1000000 <=? t)%Z.
Qed.
End IssuedTokens.

(** ** Login *)

Section LoginFacts.
Context {lib : JwtLib} {core : BcryptCore} {pyd : Pydantic}.
Variable JWT_SECRET : string.

(** The digest [checkpw] accepts is never the empty default. *)
Lemma checkpw_empty password : checkpw password "" ≠ Ok true.
Proof. by rewrite checkpw_unreadable. Qed.

(** X5: [login] hands out a token only for a record found under the given
    e-mail whose stored digest [checkpw] accepts for the given password;
    the token is the bearer token issued for that e-mail, and the store is
    as before. *)
Theorem login_token_only_after_checkpw form_data now st tok st' :
  login JWT_SECRET form_data now st = (Ok tok, st') →
  st' = st
  ∧ token_type tok = "bearer"
  ∧ ∃ doc hashed,
      doc ∈ users st
      ∧ doc !! "email" = Some (VStr (username form_data))
      ∧ doc !! "password_hash" = Some (VStr hashed)
      ∧ checkpw (password form_data) hashed = Ok true
      ∧ create_access_token JWT_SECRET
          (<["sub" := VStr (username form_data)]> ∅) None now
        = Ok (access_token tok).
Proof.
  unfold login, bind, read, lift, raise, ret.
  destruct (get_documents _ _ _ st) as [|doc docs] eqn:Hdocs; [done|].
  assert (Hin : doc ∈ get_documents "user"
            (<["email" := VStr (username form_data)]> ∅) (Some 1%nat) st).
  { rewrite Hdocs. apply list_elem_of_here. }
  apply get_documents_elem in Hin as [Hin Hm].
  apply matches_email_inv in Hm.
  destruct (py_encode _) as [hashed|e] eqn:Henc; [|discriminate].
  destruct (checkpw _ hashed) as [[]|e] eqn:Hcheck; cbn [negb];
    [|discriminate|discriminate].
  unfold dict_get. rewrite Hm.
  destruct (create_access_token _ _ _ _) as [t|e] eqn:Htok; [|discriminate].
  intros [= <- <-]. split; [reflexivity|]. split; [reflexivity|].
  exists doc, hashed.
  split; [exact Hin|]. split; [exact Hm|].
  split; [|split; [exact Hcheck|reflexivity]].
  revert Henc. unfold dict_get_default.
  destruct (doc !! "password_hash") as [[]|]; cbn [py_encode];
    intros Henc; try discriminate Henc.
  - injection Henc as ->. reflexivity.
  - injection Henc as <-. destruct (checkpw_empty _ Hcheck).
Qed.

(** X6: neither [login] nor the session resolver ever writes to the
    store, whatever they return or raise. *)
Theorem login_and_resolver_read_only form_data token now st :
  (login JWT_SECRET form_data now st).2 = st
  ∧ (get_current_user JWT_SECRET token now st).2 = st.
Proof.
  split.
  - unfold login, bind, read, lift, raise, ret.
    destruct (get_documents _ _ _ st); [reflexivity|].
    destruct (py_encode _); [|reflexivity].
    destruct (checkpw _ _) as [[]|]; cbn [negb]; try reflexivity.
    destruct (create_access_token _ _ _ _); reflexivity.
  - rewrite get_current_user_cases.
    repeat case_match; try done. apply resolve_payload_store.
Qed.

(** X7: for a record whose [password_hash] is present but not a string
    (None, as [model_dump] writes it for a user without a digest), [login]
    raises AttributeError: the default of [doc.get] covers a missing key
    only. *)
Theorem login_non_string_digest_raises form_data now st doc docs v :
  get_documents "user" (<["email" := VStr (username form_data)]> ∅)
    (Some 1%nat) st = doc :: docs →
  doc !! "password_hash" = Some v →
  (∀ s, v ≠ VStr s) →
  login JWT_SECRET form_data now st = (Raise AttributeError, st).
Proof.
  intros Hdocs Hv Hns. unfold login, bind, read, lift.
  rewrite Hdocs. unfold dict_get_default. rewrite Hv.
  destruct v; try reflexivity. by destruct (Hns s).
Qed.



End LoginFacts.

(** ** The session resolver, further *)

Section ResolverMore.
Context {lib : JwtLib} {pyd : Pydantic}.
Variable JWT_SECRET : string.

(** X9: the only ways the resolver fails are the three 401 answers
    ("Token expired", "Invalid token", "User not found"), pydantic's
    ValidationError on a stored record it cannot turn into a [User], and
    the TypeError of an expiry that is no number; it never answers with
    another status. *)
Theorem resolver_failures token now st e :
  (get_current_user JWT_SECRET token now st).1 = Raise e →
  e = HTTPException 401 "Token expired"
  ∨ e = HTTPException 401 "Invalid token"
  ∨ e = HTTPException 401 "User not found"
  ∨ e = ValidationError
  ∨ e = TypeError.
Proof.
  rewrite get_current_user_cases.
  destruct (malformed token || negb (signature_verifies JWT_SECRET token));
    [cbn [fst]; intros [= <-]; auto|].
  destruct (expiry_passed token now); [cbn [fst]; intros [= <-]; auto|].
  destruct (unexpired token now); [|cbn [fst]; intros [= <-]; auto 10].
  rewrite resolve_payload_cases.
  destruct (dict_get (token_claims token) "sub");
    try (cbn [fst]; intros [= <-]; auto);
    destruct (get_documents _ _ _ _);
    try (cbn [fst]; intros [= <-]; auto);
    cbn [fst]; intros H; apply User_init_raises in H; auto 10.
Qed.


Context {laws : JwtLibLaws lib}.

Lemma issued_exp_bounds expires_delta now :
  let lifetime := timedelta_or expires_delta
                    (timedelta_minutes ACCESS_TOKEN_EXPIRE_MINUTES) in
  (now + lifetime - 1000000 < issued_exp expires_delta now * 1000000
   ≤ now + lifetime)%Z.
Proof.
  cbv zeta. unfold issued_exp, numeric_date.
  set (x := (now + timedelta_or expires_delta _)%Z).
  pose proof (Z.mod_pos_bound x 1000000 eq_refl).
  pose proof (Z.div_mod x 1000000). lia.
Qed.

(** X11: a lifetime of zero is not honoured: a token issued with
    [expires_delta] zero is the 24-hour token, still read back with its
    subject up to 86399 seconds later. *)
Theorem zero_lifetime_is_24_hours (data : dict) (s : string) (now t : Z) :
  (t ≤ now + 86399 * 1000000)%Z →
  create_access_token JWT_SECRET data (Some 0%Z) now
  = create_access_token JWT_SECRET data None now
  ∧ ∃ token payload,
      create_access_token JWT_SECRET (<["sub" := VStr s]> ∅) (Some 0%Z) now
      = Ok token
      ∧ jwt_decode token JWT_SECRET [JWT_ALG] t = Ok payload
      ∧ payload !! "sub" = Some (VStr s).
Proof.
  intros Ht. split; [reflexivity|].
  destruct (create_access_token_subject JWT_SECRET s (Some 0%Z) now)
    as [token Htok].
  exists token. eexists. split; [exact Htok|].
  rewrite (subject_token_decodes _ _ _ _ _ _ Htok).
  pose proof (issued_exp_bounds (Some 0%Z) now) as Hb. cbv zeta in Hb.
  change (timedelta_or (Some 0%Z)
            (timedelta_minutes ACCESS_TOKEN_EXPIRE_MINUTES))
    with (86400 * 1000000)%Z in Hb.
  destruct (Z.leb_spec (issued_exp (Some 0%Z) now * 1000000) t); [lia|].
  split; [reflexivity|]. by rewrite lookup_insert_ne, lookup_insert_eq.
Qed.

(** X12: from the end of its lifetime on, an issued token is rejected
    with 401 "Token expired", whatever lifetime was asked for; a token
    issued with a negative lifetime is expired at once. *)
Theorem issued_token_expires (s : string) expires_delta (now t : Z)
    (st : Store) token :
  create_access_token JWT_SECRET (<["sub" := VStr s]> ∅) expires_delta now
  = Ok token →
  (now + timedelta_or expires_delta
           (timedelta_minutes ACCESS_TOKEN_EXPIRE_MINUTES) ≤ t)%Z →
  get_current_user JWT_SECRET token t st
  = (Raise (HTTPException 401 "Token expired"), st).
Proof.
  intros Htok Ht.
  unfold get_current_user, try_except, bind, lift.
  rewrite (subject_token_decodes _ _ _ _ _ _ Htok).
  pose proof (issued_exp_bounds expires_delta now) as Hb. cbv zeta in Hb.
  destruct (Z.leb_spec (issued_exp expires_delta now * 1000000) t); [|lia].
  reflexivity.
Qed.

(** X13: a token put together from a header, a payload and a signature
    that is not the MAC of the first two segments under the server's
    secret is rejected with 401 "Invalid token", whatever it claims. *)
Theorem forged_signature_is_invalid (header payload : dict)
    (signature : string) (now : Z) (st : Store) :
  signature ≠ hmac_sha256 JWT_SECRET (signing_input_of header payload) →
  get_current_user JWT_SECRET
    (signing_input_of header payload ++ "." ++ base64url_encode signature)
    now st
  = (Raise (HTTPException 401 "Invalid token"), st).
Proof.
  intros Hsig. rewrite get_current_user_cases.
  assert (Hv : signature_verifies JWT_SECRET
                 (signing_input_of header payload ++ "."
                    ++ base64url_encode signature) = false).
  { unfold signature_verifies. rewrite jws_load_issued.
    rewrite (bool_decide_eq_false_2 (hmac_sha256 _ _ = signature))
      by congruence.
    apply andb_false_r. }
  rewrite Hv. cbn [negb]. by rewrite orb_true_r.
Qed.
End ResolverMore.

(** ** Registration, login and resolution together *)

Section EndToEnd.
Context {lib : JwtLib} {core : BcryptCore} {pyd : Pydantic}.
Context {laws : JwtLibLaws lib}.
Variable JWT_SECRET : string.

Lemma User_of_doc_record req digest st :
  email_ok (reg_email req) = true →
  User_of_doc (record_of req digest st)
  = Ok (mkUser (Some (pretty (next_id st))) (reg_name req) (reg_email req)
          (Some "en") None None).
Proof.
  intros Hok. unfold User_of_doc, dict_get.
  assert (H1 : record_of req digest st !! "_id"
               = Some (VStr (pretty (next_id st)))) by done.
  assert (H2 : record_of req digest st !! "name"
               = Some (VStr (reg_name req))) by done.
  assert (H3 : record_of req digest st !! "email"
               = Some (VStr (reg_email req))) by done.
  assert (H4 : record_of req digest st !! "language_pref"
               = Some (VStr "en")) by done.
  assert (H5 : record_of req digest st !! "created_at" = Some VNone) by done.
  rewrite H1, H2, H3, H4, H5. unfold User_init.
  cbn [from_option validate_str validate_optional_str validate_EmailStr
         validate_optional_datetime py_str result_bind].
  rewrite Hok. reflexivity.
Qed.

(** X14: after a successful registration, logging in with the same e-mail
    and password returns a token, and presenting that token within its
    lifetime resolves to the registered identity: the identifier the
    registration returned, the name and e-mail of the request, and no
    digest. *)
Theorem register_login_resolve req rnd st resp st' (now t : Z) :
  String.length rnd = 16%nat →
  register req rnd st = (Ok resp, st') →
  (t ≤ now + 86399 * 1000000)%Z →
  ∃ tok,
    login JWT_SECRET (mkForm (reg_email req) (reg_password req)) now st'
    = (Ok tok, st')
    ∧ get_current_user JWT_SECRET (access_token tok) t st'
      = (Ok (mkUser (Some (user_id resp)) (reg_name req) (reg_email req)
               (Some "en") None None), st').
Proof.
  intros Hlen Hreg Ht.
  apply register_ok_full in Hreg as (digest & Hnone & Hhash & Hok & -> & ->).
  rewrite hashpw_gensalt in Hhash by done.
  assert (digest = digest_of (reg_password req) rnd) as -> by congruence.
  clear Hhash.
  set (record := record_of req (digest_of (reg_password req) rnd) st).
  set (st' := mkStore _ _).
  assert (Hdocs : get_documents "user"
                    (<["email" := VStr (reg_email req)]> ∅) (Some 1%nat) st'
                  = [record]).
  { apply (get_documents_created "user" _
             (User_model_dump
                (mkUser None (reg_name req) (reg_email req) (Some "en")
                   (Some (digest_of (reg_password req) rnd)) None)) st Hnone).
    by apply matches_email. }
  destruct (create_access_token_subject JWT_SECRET (reg_email req) None now)
    as [token Htok].
  exists (mkToken token "bearer"). split.
  - unfold login, bind, read, lift, raise, ret. cbn [username password].
    rewrite Hdocs. unfold dict_get_default, dict_get.
    assert (Hh : record !! "password_hash"
                 = Some (VStr (digest_of (reg_password req) rnd))) by done.
    assert (He : record !! "email" = Some (VStr (reg_email req))) by done.
    rewrite Hh, He. cbn [py_encode].
    rewrite checkpw_digest by done. cbn [negb]. by rewrite Htok.
  - cbn [access_token user_id].
    pose proof (subject_token_decodes _ _ _ _ _ t Htok) as Hdec.
    pose proof (issued_exp_bounds None now) as Hb. cbv zeta in Hb.
    change (timedelta_or None (timedelta_minutes ACCESS_TOKEN_EXPIRE_MINUTES))
      with (86400 * 1000000)%Z in Hb.
    destruct (Z.leb_spec (issued_exp None now * 1000000) t); [lia|].
    rewrite (get_current_user_decoded _ _ _ _ _ Hdec), resolve_payload_cases.
    unfold dict_get at 1. rewrite lookup_insert_ne, lookup_insert_eq by done.
    rewrite Hdocs. unfold record. by rewrite User_of_doc_record.
Qed.
End EndToEnd.

(** ** The itinerary endpoint, further *)

Lemma fold_left_min_spec l x :
  fold_left Z.min l x ∈ x :: l
  ∧ ∀ d, d ∈ x :: l → (fold_left Z.min l x ≤ d)%Z.
Proof.
  revert x. induction l as [|y l IH]; intros x; cbn [fold_left].
  - split; [apply list_elem_of_here|].
    intros d ->%list_elem_of_singleton. lia.
  - destruct (IH (Z.min x y)) as [Hin Hle]. split.
    + apply elem_of_cons in Hin as [->|Hin].
      * destruct (Z.min_spec x y) as [[_ ->]|[_ ->]].
        -- apply list_elem_of_here.
        -- apply list_elem_of_further, list_elem_of_here.
      * by do 2 apply list_elem_of_further.
    + intros d Hd.
      assert (fold_left Z.min l (Z.min x y) ≤ Z.min x y)%Z
        by (apply Hle, list_elem_of_here).
      apply elem_of_cons in Hd as [->|[->|Hd]%elem_of_cons]; [lia|lia|].
      apply Hle. by apply list_elem_of_further.
Qed.

Lemma fold_left_max_spec l x :
  fold_left Z.max l x ∈ x :: l
  ∧ ∀ d, d ∈ x :: l → (d ≤ fold_left Z.max l x)%Z.
Proof.
  revert x. induction l as [|y l IH]; intros x; cbn [fold_left].
  - split; [apply list_elem_of_here|].
    intros d ->%list_elem_of_singleton. lia.
  - destruct (IH (Z.max x y)) as [Hin Hle]. split.
    + apply elem_of_cons in Hin as [->|Hin].
      * destruct (Z.max_spec x y) as [[_ ->]|[_ ->]].
        -- apply list_elem_of_further, list_elem_of_here.
        -- apply list_elem_of_here.
      * by do 2 apply list_elem_of_further.
    + intros d Hd.
      assert (Z.max x y ≤ fold_left Z.max l (Z.max x y))%Z
        by (apply Hle, list_elem_of_here).
      apply elem_of_cons in Hd as [->|[->|Hd]%elem_of_cons]; [lia|lia|].
      apply Hle. by apply list_elem_of_further.
Qed.

(** What a successful call has computed. *)
Lemma itinerary_generate_ok_inv req user st resp st' :
  itinerary_generate req user st = (Ok resp, st') →
  ∃ places_sorted start_date end_date,
    py_sorted_desc rating_key (get_documents "place" ∅ (Some 50%nat) st)
    = Ok places_sorted
    ∧ py_min (dates req) = Ok start_date
    ∧ py_max (dates req) = Ok end_date
    ∧ resp_places resp = map place_id (take 5 places_sorted)
    ∧ resp_start_date resp = start_date
    ∧ resp_end_date resp = end_date
    ∧ resp_user_id resp = str_or_empty (id user)
    ∧ resp_itinerary_id resp = pretty (next_id st)
    ∧ st' = mkStore
              (<["itinerary" :=
                   (default [] (collections st !! "itinerary")
                    ++ [itinerary_record user
                          (map place_id (take 5 places_sorted))
                          start_date end_date st])%list]> (collections st))
              (N.succ (next_id st)).
Proof.
  unfold itinerary_generate, bind, read, lift, update, ret.
  fold rating_key.
  destruct (py_sorted_desc _ _) as [places_sorted|e]; [|discriminate].
  destruct (py_min _) as [start_date|e]; [|discriminate].
  destruct (py_max _) as [end_date|e]; [|discriminate].
  unfold create_document. intros [= <- <-].
  exists places_sorted, start_date, end_date. repeat split.
Qed.

(** X15: in a generated itinerary the start date is the earliest and the
    end date the latest of the requested dates: both are among them and
    every requested date lies between them. *)
Theorem itinerary_date_range req user st resp st' :
  itinerary_generate req user st = (Ok resp, st') →
  resp_start_date resp ∈ dates req
  ∧ resp_end_date resp ∈ dates req
  ∧ ∀ d, d ∈ dates req →
      (resp_start_date resp ≤ d ∧ d ≤ resp_end_date resp)%Z.
Proof.
  intros (ps & s & e & _ & Hmin & Hmax & _ & -> & -> & _)%itinerary_generate_ok_inv.
  destruct (dates req) as [|x l]; [discriminate|].
  cbn [py_min py_max] in Hmin, Hmax.
  injection Hmin as <-. injection Hmax as <-.
  destruct (fold_left_min_spec l x) as [Hmin_in Hmin_le].
  destruct (fold_left_max_spec l x) as [Hmax_in Hmax_le].
  split; [done|]. split; [done|]. intros d Hd. split; auto.
Qed.

Section SortedByRating.

Lemma rated_at_least_trans a b c :
  rated_at_least a b → rated_at_least b c → rated_at_least a c.
Proof.
  unfold rated_at_least.
  destruct (rating_of a), (rating_of b), (rating_of c); try done.
  intros H1 H2. by eapply Qle_trans.
Qed.

Lemma py_lt_numeric a b x y :
  rating_of a = Some x → rating_of b = Some y →
  py_lt (rating_key a) (rating_key b) = Ok (Qltb x y).
Proof.
  unfold rating_of, py_lt. fold (rating_key a) (rating_key b).
  by intros -> ->.
Qed.

Lemma insert_desc_numeric x l :
  is_Some (rating_of x) → Forall (λ p, is_Some (rating_of p)) l →
  ∃ l', insert_desc rating_key x l = Ok l'
        ∧ l' ≡ₚ x :: l
        ∧ (StronglySorted rated_at_least l → StronglySorted rated_at_least l').
Proof.
  intros [qx Hx]. induction l as [|y l IH]; intros Hl.
  - exists [x]. split; [done|]. split; [done|]. intros _.
    repeat constructor.
  - apply Forall_cons in Hl as [[qy Hy] Hl].
    cbn [insert_desc]. rewrite (py_lt_numeric y x qy qx) by done.
    cbn [result_bind]. destruct (Qltb qy qx) eqn:Hlt.
    + exists (x :: y :: l). split; [done|]. split; [done|].
      intros Hs. constructor; [exact Hs|].
      assert (Hxy : rated_at_least x y).
      { unfold rated_at_least. rewrite Hx, Hy.
        apply Qlt_le_weak, Qnot_le_lt. intros Hle.
        apply Qle_bool_iff in Hle. unfold Qltb in Hlt. by rewrite Hle in Hlt. }
      constructor; [exact Hxy|].
      apply StronglySorted_cons in Hs as [Hall _].
      eapply Forall_impl; [exact Hall|].
      intros z Hyz. by eapply rated_at_least_trans.
    + destruct (IH Hl) as (l' & -> & Hperm & Hsorted).
      cbn [result_bind]. exists (y :: l'). split; [done|]. split.
      * rewrite Hperm. apply perm_swap.
      * intros Hs. apply StronglySorted_cons in Hs as [Hall Hs].
        constructor; [by apply Hsorted|].
        rewrite Hperm. constructor; [|exact Hall].
        unfold rated_at_least. rewrite Hx, Hy.
        apply Qle_bool_iff. unfold Qltb in Hlt.
        by destruct (Qle_bool qx qy).
Qed.

(** Places with numeric ratings sort, into a rearrangement of themselves
    in descending order of rating. *)
Lemma py_sorted_desc_numeric l :
  Forall (λ p, is_Some (rating_of p)) l →
  ∃ sorted, py_sorted_desc rating_key l = Ok sorted
            ∧ sorted ≡ₚ l
            ∧ StronglySorted rated_at_least sorted.
Proof.
  unfold py_sorted_desc.
  assert (Hgen : ∀ acc,
            Forall (λ p, is_Some (rating_of p)) acc →
            StronglySorted rated_at_least acc →
            Forall (λ p, is_Some (rating_of p)) l →
            ∃ sorted,
              fold_left (λ acc x, sorted ←! acc;
                                  insert_desc rating_key x sorted) l (Ok acc)
              = Ok sorted
              ∧ sorted ≡ₚ (acc ++ l)%list
              ∧ StronglySorted rated_at_least sorted).
  { induction l as [|x l IH]; intros acc Hacc Hs Hl.
    - exists acc. by rewrite app_nil_r.
    - apply Forall_cons in Hl as [Hx Hl]. cbn [fold_left result_bind].
      destruct (insert_desc_numeric x acc Hx Hacc) as (acc' & -> & Hperm & Hs').
      destruct (IH acc') as (sorted & Hfold & Hp & Hsorted).
      + rewrite Hperm. by constructor.
      + by apply Hs'.
      + exact Hl.
      + exists sorted. split; [exact Hfold|]. split; [|exact Hsorted].
        rewrite Hp, Hperm. by rewrite <- Permutation_middle. }
  intros Hl. destruct (Hgen [] (Forall_nil_2 _) (SSorted_nil _) Hl)
    as (sorted & Hfold & Hp & Hs).
  exists sorted. by split.
Qed.
End SortedByRating.

(** X16: when every place has a numeric rating (a missing one counts as
    0), the itinerary lists the identifiers of the min(5, n) best rated of
    the n places queried: no place left out is rated higher than a place
    listed. *)
Theorem itinerary_lists_top_rated req user st resp st' :
  Forall (λ p, is_Some (rating_of p))
    (get_documents "place" ∅ (Some 50%nat) st) →
  itinerary_generate req user st = (Ok resp, st') →
  ∃ top rest,
    (top ++ rest)%list ≡ₚ get_documents "place" ∅ (Some 50%nat) st
    ∧ resp_places resp = map place_id top
    ∧ length top
      = Nat.min 5 (length (get_documents "place" ∅ (Some 50%nat) st))
    ∧ ∀ a b, a ∈ top → b ∈ rest → rated_at_least a b.
Proof.
  intros Hnum (ps & s & e & Hsort & _ & _ & Hplaces & _)%itinerary_generate_ok_inv.
  destruct (py_sorted_desc_numeric _ Hnum) as (sorted & Hsort' & Hperm & Hs).
  rewrite Hsort in Hsort'. injection Hsort' as ->.
  exists (take 5 sorted), (drop 5 sorted).
  rewrite take_drop. split; [exact Hperm|]. split; [exact Hplaces|]. split.
  - rewrite length_take. by rewrite Hperm.
  - intros a b Ha Hb.
    apply (StronglySorted_app_1_elem_of _ (take 5 sorted) (drop 5 sorted));
      [by rewrite take_drop|done|done].
Qed.

Lemma py_lt_none_r a : py_lt a VNone = Raise TypeError.
Proof. unfold py_lt. by destruct (numeric a), a. Qed.

Lemma py_lt_none_l b : py_lt VNone b = Raise TypeError.
Proof. unfold py_lt. by destruct (numeric b), b. Qed.

Lemma insert_desc_perm {A} (key : A → value) x l l' :
  insert_desc key x l = Ok l' → l' ≡ₚ x :: l.
Proof.
  revert l'. induction l as [|y l IH]; intros l'; cbn [insert_desc].
  - by intros [= <-].
  - destruct (py_lt (key y) (key x)) as [[]|]; cbn [result_bind];
      [by intros [= <-]| |discriminate].
    destruct (insert_desc key x l) as [l''|]; cbn [result_bind];
      [|discriminate].
    intros [= <-]. rewrite (IH l'' eq_refl). apply perm_swap.
Qed.

(** Inserting next to other elements compares: nothing keyed None gets
    in, and nothing gets in next to a lone element keyed None. *)
Lemma insert_desc_no_none {A} (key : A → value) x l l' :
  l ≠ [] →
  (2 ≤ length l → Forall (λ p, key p ≠ VNone) l)%nat →
  insert_desc key x l = Ok l' →
  Forall (λ p, key p ≠ VNone) l'.
Proof.
  intros Hne Hlong Hins.
  destruct l as [|y l]; [done|].
  assert (Hxy : key x ≠ VNone ∧ key y ≠ VNone).
  { revert Hins. cbn [insert_desc].
    destruct (py_lt (key y) (key x)) eqn:Hlt; [|discriminate].
    intros _. split; intros Hk; rewrite Hk in Hlt.
    - by rewrite py_lt_none_r in Hlt.
    - by rewrite py_lt_none_l in Hlt. }
  rewrite (insert_desc_perm _ _ _ _ Hins).
  constructor; [apply Hxy|].
  destruct l as [|z l].
  - constructor; [apply Hxy|constructor].
  - apply Hlong. cbn. lia.
Qed.

Lemma py_sorted_desc_no_none {A} (key : A → value) l sorted :
  py_sorted_desc key l = Ok sorted →
  (2 ≤ length l)%nat →
  Forall (λ p, key p ≠ VNone) l.
Proof.
  unfold py_sorted_desc.
  assert (Hgen : ∀ acc sorted,
            (2 ≤ length acc → Forall (λ p, key p ≠ VNone) acc)%nat →
            fold_left (λ acc x, s ←! acc; insert_desc key x s) l (Ok acc)
            = Ok sorted →
            sorted ≡ₚ (acc ++ l)%list
            ∧ (2 ≤ length sorted → Forall (λ p, key p ≠ VNone) sorted)%nat).
  { induction l as [|x l IH]; intros acc s Hacc; cbn [fold_left result_bind].
    - intros [= <-]. by rewrite app_nil_r.
    - destruct (insert_desc key x acc) as [acc'|e] eqn:Hins.
      + intros Hfold. destruct (IH acc' s) as [Hperm Hs]; [|exact Hfold|].
        * destruct acc as [|y acc].
          -- cbn in Hins. injection Hins as <-. cbn. lia.
          -- intros _. by eapply (insert_desc_no_none key x (y :: acc)).
        * split; [|exact Hs].
          rewrite Hperm, (insert_desc_perm _ _ _ _ Hins).
          by rewrite <- Permutation_middle.
      + intros Hfold. exfalso. clear -Hfold.
        induction l as [|z l IHl]; cbn in Hfold; [discriminate|auto]. }
  intros Hfold Hlen.
  destruct (Hgen [] sorted (λ _, Forall_nil_2 _) Hfold) as [Hperm Hs].
  cbn [app] in Hperm. rewrite <- Hperm. apply Hs. by rewrite Hperm.
Qed.

(** X17: as soon as two or more places are queried and one of them has
    an explicit rating of None (as [model_dump] writes it for a place
    without rating), every itinerary request fails with an unhandled
    TypeError, raised by the sort, and nothing is stored. *)
Theorem itinerary_none_rating_raises req user st place :
  (2 ≤ length (get_documents "place" ∅ (Some 50%nat) st))%nat →
  place ∈ get_documents "place" ∅ (Some 50%nat) st →
  place !! "rating" = Some VNone →
  itinerary_generate req user st = (Raise TypeError, st).
Proof.
  intros Hlen Hin Hrating.
  unfold itinerary_generate, bind, read, lift.
  destruct (py_sorted_desc _ _) as [sorted|e] eqn:Hsort.
  - exfalso. pose proof (py_sorted_desc_no_none _ _ _ Hsort Hlen) as Hall.
    rewrite Forall_forall in Hall. apply (Hall place Hin).
    unfold dict_get_default. by rewrite Hrating.
  - by apply py_sorted_desc_raises in Hsort as ->.
Qed.

(** X18: with at least one date and places whose ratings are numeric the
    endpoint succeeds; it appends exactly one record to the itinerary
    collection, filed under the identifier of the authenticated user (the
    empty string when the user has none) whatever [user_id] the request
    names, and answers with the identifier the store assigned. *)
Theorem itinerary_generate_succeeds req user st :
  dates req ≠ [] →
  Forall (λ p, is_Some (rating_of p))
    (get_documents "place" ∅ (Some 50%nat) st) →
  ∃ resp record,
    itinerary_generate req user st
    = (Ok resp,
       mkStore (<["itinerary" :=
                    (default [] (collections st !! "itinerary")
                     ++ [record])%list]> (collections st))
         (N.succ (next_id st)))
    ∧ resp_itinerary_id resp = pretty (next_id st)
    ∧ resp_user_id resp = str_or_empty (id user)
    ∧ record !! "_id" = Some (VStr (resp_itinerary_id resp))
    ∧ record !! "user_id" = Some (VStr (str_or_empty (id user)))
    ∧ record !! "places" = Some (VList (resp_places resp))
    ∧ record !! "start_date" = Some (VDate (resp_start_date resp))
    ∧ record !! "end_date" = Some (VDate (resp_end_date resp)).
Proof.
  intros Hdates Hnum.
  destruct (py_sorted_desc_numeric _ Hnum) as (sorted & Hsort & _ & _).
  unfold itinerary_generate, bind, read, lift, update, ret.
  fold rating_key. rewrite Hsort.
  destruct (dates req) as [|d ds]; [done|]. cbn [py_min py_max].
  unfold create_document.
  eexists. eexists. split; [reflexivity|]. by repeat split.
Qed.

(** ** The vision alert endpoint *)

Section VisionFacts.
Context {pyf : PydanticFloat}.

Lemma validate_optional_float_raises v e :
  validate_optional_float v = Raise e → e = ValidationError.
Proof.
  destruct v; cbn; try congruence; destruct (coerce_float _); congruence.
Qed.

(** X19: an alert whose confidence lies outside [0, 1] passes the request
    model, which does not bound it, and then fails the stored model: the
    endpoint raises an unhandled ValidationError and stores nothing. *)
Theorem vision_alerts_rejects_confidence alert user st :
  Qlt (alert_confidence alert) 0 ∨ Qlt 1 (alert_confidence alert) →
  vision_alerts alert user st = (Raise ValidationError, st).
Proof.
  intros Hout. unfold vision_alerts, bind, lift, CameraAlert_init.
  assert (Hv : validate_confidence (alert_confidence alert)
               = Raise ValidationError).
  { unfold validate_confidence.
    destruct (Qle_bool 0 (alert_confidence alert)) eqn:H0;
      destruct (Qle_bool (alert_confidence alert) 1) eqn:H1; try reflexivity.
    apply Qle_bool_iff in H0, H1.
    destruct Hout as [Hlt|Hlt]; exfalso; eapply Qlt_not_le; eauto. }
  by rewrite Hv.
Qed.

(** X20: the endpoint either stores exactly one record in the camera
    alert collection, with the alert's camera, time, type and a confidence
    within [0, 1], and acknowledges with status "ok" and the identifier of
    that record, or it raises ValidationError and leaves the store as it
    was. *)
Theorem vision_alerts_outcomes alert user st :
  (∃ record,
     vision_alerts alert user st
     = (Ok (mkVisionAlertAck "ok" (pretty (next_id st))),
        mkStore (<["cameraalert" :=
                     (default [] (collections st !! "cameraalert")
                      ++ [record])%list]> (collections st))
          (N.succ (next_id st)))
     ∧ record !! "_id" = Some (VStr (pretty (next_id st)))
     ∧ record !! "camera_id" = Some (VStr (alert_camera_id alert))
     ∧ record !! "timestamp" = Some (VDatetime (alert_timestamp alert))
     ∧ record !! "alert_type" = Some (VStr (alert_alert_type alert))
     ∧ record !! "confidence" = Some (VFloat (alert_confidence alert))
     ∧ Qle 0 (alert_confidence alert) ∧ Qle (alert_confidence alert) 1)
  ∨ vision_alerts alert user st = (Raise ValidationError, st).
Proof.
  unfold vision_alerts, bind, lift, update, ret, CameraAlert_init,
    validate_confidence.
  destruct (Qle_bool 0 (alert_confidence alert)) eqn:H0;
    destruct (Qle_bool (alert_confidence alert) 1) eqn:H1;
    cbn [andb result_bind]; try (by right).
  destruct (validate_optional_float (coords_get (coords alert) "lat"))
    as [la|e] eqn:Hla; cbn [result_bind].
  2: { right. by apply validate_optional_float_raises in Hla as ->. }
  destruct (validate_optional_float (coords_get (coords alert) "lng"))
    as [lo|e] eqn:Hlo; cbn [result_bind].
  2: { right. by apply validate_optional_float_raises in Hlo as ->. }
  left. unfold create_document. eexists. split; [reflexivity|].
  apply Qle_bool_iff in H0, H1. by repeat split.
Qed.
End VisionFacts.

(** ** The further theorems at the example data *)

Lemma ex_register_ok :
  register ex_request "0123456789abcdef" ex_store0
  = (Ok (mkAuthRegisterResponse "0" "ann@x.com" "Ann"), ex_store1).
Proof. vm_compute. reflexivity. Qed.

Lemma register_creates_one_record_witness :
  register ex_request "0123456789abcdef" ex_store0
  = (Ok (mkAuthRegisterResponse "0" "ann@x.com" "Ann"), ex_store1)
  ∧ ∃ digest,
      hashpw "pw123" (gensalt "0123456789abcdef") = Ok digest
      ∧ users ex_store1 = [record_of ex_request digest ex_store0].
Proof.
  split; [exact ex_register_ok|].
  destruct (register_creates_one_record ex_request "0123456789abcdef"
              ex_store0 _ ex_store1 ex_register_ok)
    as (digest & Hhash & _ & Husers & _).
  exists digest. split; [exact Hhash|exact Husers].
Defined.


Lemma register_preserves_unique_emails_witness :
  unique_emails ex_store0 ∧ unique_emails ex_store1.
Proof.
  assert (H0 : unique_emails ex_store0) by apply NoDup_nil_2.
  split; [exact H0|].
  exact (register_preserves_unique_emails ex_request "0123456789abcdef"
           ex_store0 _ ex_store1 H0 ex_register_ok).
Defined.

Lemma ex_login_ok :
  login ex_secret (mkForm "ann@x.com" "pw123") 1500000 ex_store1
  = (Ok (mkToken ex_token_ann "bearer"), ex_store1).
Proof. vm_compute. reflexivity. Qed.

Lemma login_token_only_after_checkpw_witness :
  login ex_secret (mkForm "ann@x.com" "pw123") 1500000 ex_store1
  = (Ok (mkToken ex_token_ann "bearer"), ex_store1)
  ∧ ∃ doc hashed,
      doc ∈ users ex_store1
      ∧ doc !! "password_hash" = Some (VStr hashed)
      ∧ checkpw "pw123" hashed = Ok true.
Proof.
  split; [exact ex_login_ok|].
  destruct (login_token_only_after_checkpw ex_secret
              (mkForm "ann@x.com" "pw123") 1500000 ex_store1 _ ex_store1
              ex_login_ok)
    as (_ & _ & doc & hashed & Hin & _ & Hh & Hcheck & _).
  exists doc, hashed. split; [exact Hin|]. split; [exact Hh|exact Hcheck].
Defined.

Lemma login_non_string_digest_witness :
  get_documents "user" (<["email" := VStr "bob@x.com"]> ∅) (Some 1%nat)
    ex_store_none_hash = [ex_doc_none_hash]
  ∧ ex_doc_none_hash !! "password_hash" = Some VNone
  ∧ login ex_secret (mkForm "bob@x.com" "pw") 0 ex_store_none_hash
    = (Raise AttributeError, ex_store_none_hash).
Proof.
  assert (H1 : get_documents "user" (<["email" := VStr "bob@x.com"]> ∅)
                 (Some 1%nat) ex_store_none_hash = [ex_doc_none_hash])
    by (vm_compute; reflexivity).
  assert (H2 : ex_doc_none_hash !! "password_hash" = Some VNone)
    by (vm_compute; reflexivity).
  split; [exact H1|]. split; [exact H2|].
  apply (login_non_string_digest_raises ex_secret (mkForm "bob@x.com" "pw") 0
           ex_store_none_hash ex_doc_none_hash [] VNone H1 H2).
  discriminate.
Defined.



Lemma resolver_failures_witness :
  (get_current_user ex_secret "garbage" 0 ex_store1).1
  = Raise (HTTPException 401 "Invalid token")
  ∧ (HTTPException 401 "Invalid token" = HTTPException 401 "Token expired"
     ∨ HTTPException 401 "Invalid token" = HTTPException 401 "Invalid token"
     ∨ HTTPException 401 "Invalid token" = HTTPException 401 "User not found"
     ∨ HTTPException 401 "Invalid token" = ValidationError
     ∨ HTTPException 401 "Invalid token" = TypeError).
Proof.
  assert (H : (get_current_user ex_secret "garbage" 0 ex_store1).1
              = Raise (HTTPException 401 "Invalid token"))
    by (vm_compute; reflexivity).
  split; [exact H|].
  exact (resolver_failures ex_secret "garbage" 0 ex_store1 _ H).
Defined.

Lemma zero_lifetime_witness :
  (1500000 ≤ 0 + 86399 * 1000000)%Z
  ∧ ∃ token payload,
      create_access_token ex_secret (<["sub" := VStr "ann@x.com"]> ∅)
        (Some 0%Z) 0 = Ok token
      ∧ jwt_decode token ex_secret [JWT_ALG] 1500000 = Ok payload
      ∧ payload !! "sub" = Some (VStr "ann@x.com").
Proof.
  split; [lia|].
  apply (zero_lifetime_is_24_hours ex_secret ∅ "ann@x.com" 0 1500000).
  lia.
Defined.

Lemma issued_token_expires_witness :
  create_access_token ex_secret (<["sub" := VStr "ann@x.com"]> ∅) None 1500000
  = Ok ex_token_ann
  ∧ (1500000
     + timedelta_or None (timedelta_minutes ACCESS_TOKEN_EXPIRE_MINUTES)
     ≤ 86401500000)%Z
  ∧ get_current_user ex_secret ex_token_ann 86401500000 ex_store1
    = (Raise (HTTPException 401 "Token expired"), ex_store1).
Proof.
  assert (H : create_access_token ex_secret
                (<["sub" := VStr "ann@x.com"]> ∅) None 1500000
              = Ok ex_token_ann) by (vm_compute; reflexivity).
  split; [exact H|]. split; [vm_compute; discriminate|].
  apply (issued_token_expires ex_secret "ann@x.com" None 1500000 86401500000
           ex_store1 ex_token_ann H).
  vm_compute. discriminate.
Defined.

Lemma forged_signature_witness :
  "forged" ≠ hmac_sha256 ex_secret
               (signing_input_of (jwt_header "HS256")
                  (<["sub" := VStr "admin@x.com"]> ∅))
  ∧ get_current_user ex_secret ex_forged_token 0 ex_store1
    = (Raise (HTTPException 401 "Invalid token"), ex_store1).
Proof.
  assert (H : "forged" ≠ hmac_sha256 ex_secret
                (signing_input_of (jwt_header "HS256")
                   (<["sub" := VStr "admin@x.com"]> ∅)))
    by (vm_compute; discriminate).
  split; [exact H|].
  exact (forged_signature_is_invalid ex_secret (jwt_header "HS256")
           (<["sub" := VStr "admin@x.com"]> ∅) "forged" 0 ex_store1 H).
Defined.

Lemma register_login_resolve_witness :
  ∃ tok,
    login ex_secret (mkForm "ann@x.com" "pw123") 0 ex_store1
    = (Ok tok, ex_store1)
    ∧ get_current_user ex_secret (access_token tok) 3600000000 ex_store1
      = (Ok ex_user, ex_store1).
Proof.
  apply (register_login_resolve ex_secret ex_request "0123456789abcdef"
           ex_store0 (mkAuthRegisterResponse "0" "ann@x.com" "Ann") ex_store1
           0 3600000000);
    [reflexivity|exact ex_register_ok|lia].
Defined.

Lemma ex_places_queried :
  get_documents "place" ∅ (Some 50%nat) ex_store_places = ex_places.
Proof. vm_compute. reflexivity. Qed.

Lemma ex_places_numeric :
  Forall (λ p, is_Some (rating_of p))
    (get_documents "place" ∅ (Some 50%nat) ex_store_places).
Proof.
  rewrite ex_places_queried. repeat constructor; by eexists.
Qed.

(** The itinerary for the seven example places: the five best rated, in
    descending order, the tie between p1 and p6 in stored order. *)
Lemma ex_itinerary_ok :
  (itinerary_generate ex_dated_request ex_user ex_store_places).1
  = Ok (mkItineraryGenerateResponse "7" "0" ["p2"; "p4"; "p7"; "p1"; "p6"]
          18 20 (Qplus (1 # 2) (Qmult (inject_Z 5) (1 # 10)))).
Proof. vm_compute. reflexivity. Qed.

Lemma itinerary_date_range_witness :
  (∃ st', itinerary_generate ex_dated_request ex_user ex_store_places
          = (Ok (mkItineraryGenerateResponse "7" "0"
                   ["p2"; "p4"; "p7"; "p1"; "p6"] 18 20
                   (Qplus (1 # 2) (Qmult (inject_Z 5) (1 # 10)))), st'))
  ∧ ∀ d, d ∈ dates ex_dated_request → (18 ≤ d ∧ d ≤ 20)%Z.
Proof.
  pose proof ex_itinerary_ok as Hok.
  destruct (itinerary_generate ex_dated_request ex_user ex_store_places)
    as [r st'] eqn:Hgen.
  cbn [fst] in Hok. subst r. split; [by exists st'|].
  apply (itinerary_date_range ex_dated_request ex_user ex_store_places
           _ st' Hgen).
Defined.

Lemma itinerary_lists_top_rated_witness :
  ∃ top rest,
    (top ++ rest)%list ≡ₚ get_documents "place" ∅ (Some 50%nat) ex_store_places
    ∧ ["p2"; "p4"; "p7"; "p1"; "p6"] = map place_id top
    ∧ length top
      = Nat.min 5 (length (get_documents "place" ∅ (Some 50%nat)
                             ex_store_places))
    ∧ ∀ a b, a ∈ top → b ∈ rest → rated_at_least a b.
Proof.
  pose proof ex_itinerary_ok as Hok.
  destruct (itinerary_generate ex_dated_request ex_user ex_store_places)
    as [r st'] eqn:Hgen.
  cbn [fst] in Hok. subst r.
  exact (itinerary_lists_top_rated ex_dated_request ex_user ex_store_places
           _ st' ex_places_numeric Hgen).
Defined.

Lemma itinerary_none_rating_witness :
  (2 ≤ length (get_documents "place" ∅ (Some 50%nat) ex_store_places_none))%nat
  ∧ ex_place "p2" (Some VNone)
    ∈ get_documents "place" ∅ (Some 50%nat) ex_store_places_none
  ∧ itinerary_generate ex_dated_request ex_user ex_store_places_none
    = (Raise TypeError, ex_store_places_none).
Proof.
  assert (Hq : get_documents "place" ∅ (Some 50%nat) ex_store_places_none
               = ex_places_none) by (vm_compute; reflexivity).
  assert (H1 : (2 ≤ length (get_documents "place" ∅ (Some 50%nat)
                             ex_store_places_none))%nat)
    by (rewrite Hq; cbn; lia).
  assert (H2 : ex_place "p2" (Some VNone)
               ∈ get_documents "place" ∅ (Some 50%nat) ex_store_places_none)
    by (rewrite Hq; apply list_elem_of_further, list_elem_of_here).
  split; [exact H1|]. split; [exact H2|].
  apply (itinerary_none_rating_raises ex_dated_request ex_user
           ex_store_places_none (ex_place "p2" (Some VNone)) H1 H2).
  reflexivity.
Defined.

Lemma itinerary_generate_succeeds_witness :
  dates ex_dated_request ≠ []
  ∧ ∃ resp st',
      itinerary_generate ex_dated_request ex_user ex_store_places
      = (Ok resp, st')
      ∧ resp_user_id resp = "0"
      ∧ req_user_id ex_dated_request = "someone-else".
Proof.
  assert (H : dates ex_dated_request ≠ []) by discriminate.
  split; [exact H|].
  destruct (itinerary_generate_succeeds ex_dated_request ex_user
              ex_store_places H ex_places_numeric)
    as (resp & record & Hgen & _ & Huser & _).
  exists resp. eexists. split; [exact Hgen|]. split; [exact Huser|reflexivity].
Defined.

Lemma vision_alerts_rejects_confidence_witness :
  Qlt 1 (alert_confidence ex_alert)
  ∧ vision_alerts ex_alert ex_user ex_store1
    = (Raise ValidationError, ex_store1).
Proof.
  assert (H : Qlt 1 (alert_confidence ex_alert)) by reflexivity.
  split; [exact H|].
  exact (vision_alerts_rejects_confidence ex_alert ex_user ex_store1
           (or_intror H)).
Defined.
